(** * ADK runtime providers and Temporal delegation layer

    A shallow embedding of
    - [google/adk/platform/time.py], [google/adk/platform/uuid.py] and
      [google/adk/runtime.py]: the swappable providers of wall-clock time
      and unique identifiers;
    - [google/adk/integrations/temporal.py]: [activity_as_tool],
      [generate_content_activity] and [TemporalModel].

    Python module globals become explicit module states, the host
    (system clock, entropy source, Temporal's [workflow.execute_activity])
    becomes an explicit world and channel, and the async generator of
    [TemporalModel.generate_content_async] becomes a step machine driven by
    its consumer. *)

From Stdlib Require Import ZArith List String Ascii Bool Lia PrimFloat.
From stdpp Require Import base gmap strings list.
Import ListNotations.

Local Open Scope string_scope.
Local Open Scope Z_scope.

(* ================================================================== *)
(** ** The host: clock and entropy *)
(* ================================================================== *)

(** Python's [float] is an IEEE 754 binary64, as is [PrimFloat.float]. *)
Definition pyfloat : Set := PrimFloat.float.

(** What a provider can observe and change outside the registry: the system
    clock, the operating system's entropy, and the cells a user-supplied
    provider closes over. *)
Record World := mkWorld {
  wall_clock : nat -> pyfloat;     (* the n-th reading of the system clock *)
  clock_reads : nat;               (* readings taken so far *)
  entropy : nat -> Z;              (* the n-th byte the OS will hand out *)
  entropy_used : nat;              (* bytes handed out so far *)
  cells : gmap string Z            (* state captured by user providers *)
}.

(** A Python [Callable[[], A]]: called with no argument, it returns a value
    and may have changed the world. *)
Definition Provider (A : Type) : Type := World -> A * World.

(** [time.time()] *)
Definition time_time : Provider pyfloat := fun w =>
  (wall_clock w (clock_reads w),
   mkWorld (wall_clock w) (S (clock_reads w)) (entropy w) (entropy_used w)
           (cells w)).

(** [os.urandom(n)]: the next [n] bytes of entropy. *)
Definition os_urandom (n : nat) : Provider (list Z) := fun w =>
  (map (fun i => entropy w (entropy_used w + i)%nat mod 256) (seq 0 n),
   mkWorld (wall_clock w) (clock_reads w) (entropy w)
           (entropy_used w + n)%nat (cells w)).

(** *** [str(uuid.uuid4())], after CPython's [uuid] module

    [uuid4()] is [UUID(bytes=os.urandom(16), version=4)]: the sixteen bytes
    are read big-endian, the variant bits are set to RFC 4122 and the
    version nibble to 4; [str] prints 32 lower-case hexadecimal digits in
    groups of 8-4-4-4-12. *)

Definition int_from_bytes (bs : list Z) : Z :=
  fold_left (fun acc b => acc * 256 + b) bs 0.

Definition set_version4 (i : Z) : Z :=
  let i := Z.land i (Z.lnot (Z.shiftl 0xc000 48)) in
  let i := Z.lor i (Z.shiftl 0x8000 48) in
  let i := Z.land i (Z.lnot (Z.shiftl 0xf000 64)) in
  Z.lor i (Z.shiftl 4 76).

Definition hex_digit (n : Z) : ascii :=
  nth (Z.to_nat n) (list_ascii_of_string "0123456789abcdef") "0"%char.

(** The [k]-th (from the left) of the 32 digits of ['%032x' % i]. *)
Definition hex_at (i : Z) (k : nat) : ascii :=
  hex_digit (Z.land (Z.shiftr i (4 * (31 - Z.of_nat k))) 15).

Definition hex32 (i : Z) : list ascii := map (hex_at i) (seq 0 32).

Definition uuid_str (i : Z) : string :=
  let h := hex32 i in
  let dash := ["-"%char] in
  string_of_list_ascii
    (firstn 8 h ++ dash ++ firstn 4 (skipn 8 h) ++ dash
     ++ firstn 4 (skipn 12 h) ++ dash ++ firstn 4 (skipn 16 h) ++ dash
     ++ skipn 20 h).

Definition str_uuid4 : Provider string := fun w =>
  let '(bs, w') := os_urandom 16 w in
  (uuid_str (set_version4 (int_from_bytes bs)), w').

(** Shape of a version-4 UUID in its canonical text form. *)
Definition is_hex (c : ascii) : bool :=
  existsb (Ascii.eqb c) (list_ascii_of_string "0123456789abcdef").

Definition is_uuid4_string (s : string) : bool :=
  let cs := list_ascii_of_string s in
  (length cs =? 36)%nat
  && forallb (fun k =>
       let c := nth k cs " "%char in
       if existsb (Nat.eqb k) [8; 13; 18; 23]%nat then Ascii.eqb c "-"
       else if (k =? 14)%nat then Ascii.eqb c "4"
       else if (k =? 19)%nat
            then existsb (Ascii.eqb c) (list_ascii_of_string "89ab")
       else is_hex c) (seq 0 36).

(* ================================================================== *)
(** ** [google/adk/platform/time.py] *)
(* ================================================================== *)

Module platform_time.

(** The module's one mutable global. *)
Record module_state := mk { _time_provider : Provider pyfloat }.

Definition _default_time_provider : Provider pyfloat := time_time.

(** State right after import. *)
Definition initial : module_state := mk _default_time_provider.

Definition set_time_provider (provider : Provider pyfloat)
    (m : module_state) : module_state :=
  mk provider.

Definition reset_time_provider (m : module_state) : module_state :=
  mk _default_time_provider.

Definition get_time (m : module_state) : Provider pyfloat :=
  fun w => _time_provider m w.

End platform_time.

(* ================================================================== *)
(** ** [google/adk/platform/uuid.py] *)
(* ================================================================== *)

Module platform_uuid.

Record module_state := mk { _id_provider : Provider string }.

Definition _default_id_provider : Provider string :=
  fun w => str_uuid4 w.

Definition initial : module_state := mk _default_id_provider.

Definition set_id_provider (provider : Provider string)
    (m : module_state) : module_state :=
  mk provider.

Definition reset_id_provider (m : module_state) : module_state :=
  mk _default_id_provider.

Definition new_uuid (m : module_state) : Provider string :=
  fun w => _id_provider m w.

End platform_uuid.

(* ================================================================== *)
(** ** [google/adk/runtime.py] *)
(* ================================================================== *)

Module runtime.

(** Two globals, and no name for their initial values. *)
Record module_state := mk {
  _time_provider : Provider pyfloat;
  _id_provider : Provider string
}.

Definition initial : module_state :=
  mk time_time (fun w => str_uuid4 w).

Definition set_time_provider (provider : Provider pyfloat)
    (m : module_state) : module_state :=
  mk provider (_id_provider m).

Definition set_id_provider (provider : Provider string)
    (m : module_state) : module_state :=
  mk (_time_provider m) provider.

Definition get_time (m : module_state) : Provider pyfloat :=
  fun w => _time_provider m w.

Definition new_uuid (m : module_state) : Provider string :=
  fun w => _id_provider m w.

End runtime.

(* ================================================================== *)
(** ** One process with the three modules imported *)
(* ================================================================== *)

Record Process := mkProcess {
  mod_platform_time : platform_time.module_state;
  mod_platform_uuid : platform_uuid.module_state;
  mod_runtime : runtime.module_state
}.

Definition fresh_process : Process :=
  mkProcess platform_time.initial platform_uuid.initial runtime.initial.

(** Every function the three modules export; nothing else can touch their
    globals. *)
Inductive api_call :=
| platform_time_set_time_provider (provider : Provider pyfloat)
| platform_time_reset_time_provider
| platform_time_get_time
| platform_uuid_set_id_provider (provider : Provider string)
| platform_uuid_reset_id_provider
| platform_uuid_new_uuid
| runtime_set_time_provider (provider : Provider pyfloat)
| runtime_set_id_provider (provider : Provider string)
| runtime_get_time
| runtime_new_uuid.

Inductive api_result :=
| ret_None
| ret_float (t : pyfloat)
| ret_str (s : string).

Definition call (c : api_call) (P : Process) (w : World)
    : api_result * Process * World :=
  let pt := mod_platform_time P in
  let pu := mod_platform_uuid P in
  let rt := mod_runtime P in
  match c with
  | platform_time_set_time_provider p =>
      (ret_None, mkProcess (platform_time.set_time_provider p pt) pu rt, w)
  | platform_time_reset_time_provider =>
      (ret_None, mkProcess (platform_time.reset_time_provider pt) pu rt, w)
  | platform_time_get_time =>
      let '(t, w') := platform_time.get_time pt w in (ret_float t, P, w')
  | platform_uuid_set_id_provider p =>
      (ret_None, mkProcess pt (platform_uuid.set_id_provider p pu) rt, w)
  | platform_uuid_reset_id_provider =>
      (ret_None, mkProcess pt (platform_uuid.reset_id_provider pu) rt, w)
  | platform_uuid_new_uuid =>
      let '(s, w') := platform_uuid.new_uuid pu w in (ret_str s, P, w')
  | runtime_set_time_provider p =>
      (ret_None, mkProcess pt pu (runtime.set_time_provider p rt), w)
  | runtime_set_id_provider p =>
      (ret_None, mkProcess pt pu (runtime.set_id_provider p rt), w)
  | runtime_get_time =>
      let '(t, w') := runtime.get_time rt w in (ret_float t, P, w')
  | runtime_new_uuid =>
      let '(s, w') := runtime.new_uuid rt w in (ret_str s, P, w')
  end.

(** A straight-line program of API calls. *)
Fixpoint calls (cs : list api_call) (P : Process) (w : World)
    : list api_result * Process * World :=
  match cs with
  | [] => ([], P, w)
  | c :: cs' =>
      let '(r, P1, w1) := call c P w in
      let '(rs, P2, w2) := calls cs' P1 w1 in
      (r :: rs, P2, w2)
  end.

(** Which calls write which global. *)
Definition writes_platform_time (c : api_call) : bool :=
  match c with
  | platform_time_set_time_provider _ | platform_time_reset_time_provider =>
      true
  | _ => false
  end.

Definition writes_platform_uuid (c : api_call) : bool :=
  match c with
  | platform_uuid_set_id_provider _ | platform_uuid_reset_id_provider => true
  | _ => false
  end.

Definition writes_runtime_time (c : api_call) : bool :=
  match c with runtime_set_time_provider _ => true | _ => false end.

Definition writes_runtime_id (c : api_call) : bool :=
  match c with runtime_set_id_provider _ => true | _ => false end.

Definition is_runtime_call (c : api_call) : bool :=
  match c with
  | runtime_set_time_provider _ | runtime_set_id_provider _
  | runtime_get_time | runtime_new_uuid => true
  | _ => false
  end.


(* ================================================================== *)
(** ** Python data, objects and exceptions *)
(* ================================================================== *)

(** Plain data as it crosses the activity boundary. *)
#[warnings="-register-all"]
Inductive value :=
| VNone
| VBool (b : bool)
| VInt (n : Z)
| VStr (s : string)
| VList (vs : list value).

(** [**kwargs]: a dict, whose iteration order is insertion order. *)
Definition kwargs : Type := list (string * value).

Definition has_key (k : string) (kw : kwargs) : bool :=
  existsb (fun kv => String.eqb k (fst kv)) kw.

(** [list(kw.values())] *)
Definition dict_values (kw : kwargs) : list value := map snd kw.

(** Truth value of a dict: non-empty. *)
Definition dict_truthy (kw : kwargs) : bool :=
  match kw with [] => false | _ :: _ => true end.

(** Truth value of an [Optional[str]]: neither [None] nor the empty
    string. *)
Definition str_truthy (s : option string) : bool :=
  match s with
  | None => false
  | Some s => negb (String.eqb s "")
  end.

Record exn := mkExn { exn_type : string; exn_msg : string }.

Definition ValueError (msg : string) : exn := mkExn "ValueError" msg.
Definition TypeError (msg : string) : exn := mkExn "TypeError" msg.
Definition AttributeError (msg : string) : exn := mkExn "AttributeError" msg.
Definition RuntimeError (msg : string) : exn := mkExn "RuntimeError" msg.

(** An exception is told from another by its class, here its name. *)
Definition is_instance (cls : string) (e : exn) : bool :=
  String.eqb (exn_type e) cls.

(** What leaves a coroutine ([async def]) when [e] is raised in its body:
    Python does not let [StopIteration] out. *)
Definition coroutine_raised (e : exn) : exn :=
  if is_instance "StopIteration" e
  then RuntimeError "coroutine raised StopIteration"
  else e.

(** What leaves an async generator when [e] is raised in its body: neither
    [StopIteration] nor [StopAsyncIteration] gets out. *)
Definition agen_raised (e : exn) : exn :=
  if is_instance "StopIteration" e
  then RuntimeError "async generator raised StopIteration"
  else if is_instance "StopAsyncIteration" e
  then RuntimeError "async generator raised StopAsyncIteration"
  else e.

(** [iter(v)] followed by exhausting the iterator, as [for x in v] does. *)
Definition py_iter (v : value) : exn + list value :=
  match v with
  | VList vs => inr vs
  | VStr s => inr (map (fun c => VStr (String c "")) (list_ascii_of_string s))
  | VNone => inl (TypeError "'NoneType' object is not iterable")
  | VBool _ => inl (TypeError "'bool' object is not iterable")
  | VInt _ => inl (TypeError "'int' object is not iterable")
  end.

(** [LlmRequest], with the fields this layer reads or writes ([model]) and
    the payload it carries along untouched. *)
Record LlmRequest := mkLlmRequest {
  model : option string;
  contents : list string
}.

Definition with_model (r : LlmRequest) (m : option string) : LlmRequest :=
  mkLlmRequest m (contents r).

(** Python objects have identity; requests live on a heap and are passed
    by reference. *)
Abbreviation loc := positive.

(** What is passed in [args=[...]]: data, or a request object itself. *)
Inductive argument :=
| by_value (v : value)
| by_reference (l : loc).

(** [inspect.Signature]: parameter names with their annotations, and the
    return annotation. *)
Record Signature := mkSignature {
  parameters : list (string * string);
  return_annotation : string
}.

(** A callable as [activity_as_tool] and [TemporalModel] look at it. *)
Record Callable := mkCallable {
  dunder_name : option string;      (* [__name__]; some callables have none *)
  attr_name : option value;         (* a [name] attribute, when present *)
  dunder_doc : option string;       (* [__doc__]; [None] without docstring *)
  dunder_annotations : option (list (string * string));
  inspect_signature : option Signature   (* [None]: inspect.signature raises *)
}.

(* ================================================================== *)
(** ** The remote-execution channel: [workflow.execute_activity] *)
(* ================================================================== *)

(** One call that reached the channel. *)
Record Call := mkCall {
  call_activity : Callable;
  call_args : list argument;
  call_options : kwargs
}.

Record State := mkState {
  heap : gmap positive LlmRequest;   (* the caller's request objects *)
  channel_log : list Call;           (* calls received by the channel *)
  next_id : positive                 (* identity of the next new object *)
}.

(** The host's behaviour: what an awaited [execute_activity] resolves to.
    The unit of work runs in another process on serialised arguments: the
    channel reads the caller's state and cannot write it. *)
Definition Channel : Type := State -> Call -> exn + value.

(** Computations that read and write the state and may raise. *)
Definition M (A : Type) : Type := State -> (exn + A) * State.

Definition ret {A} (a : A) : M A := fun s => (inr a, s).
Definition raise {A} (e : exn) : M A := fun s => (inl e, s).
Definition bind {A B} (m : M A) (k : A -> M B) : M B :=
  fun s => match m s with
           | (inr a, s') => k a s'
           | (inl e, s') => (inl e, s')
           end.

Notation "'let!' x ':=' m 'in' k" := (bind m (fun x => k))
  (at level 10, x name, m at level 100, k at level 200).
Notation "'do!' m 'in' k" := (bind m (fun _ => k))
  (at level 10, m at level 100, k at level 200).

(** [obj.model] *)
Definition get_model (l : loc) : M (option string) := fun s =>
  match heap s !! l with
  | Some r => (inr (model r), s)
  | None => (inl (AttributeError "object has no attribute 'model'"), s)
  end.

(** [obj.model = m] *)
Definition set_model (l : loc) (m : option string) : M unit := fun s =>
  match heap s !! l with
  | Some r =>
      (inr tt,
       mkState (<[l := with_model r m]> (heap s)) (channel_log s) (next_id s))
  | None => (inl (AttributeError "object has no attribute 'model'"), s)
  end.

(** A new object identity. *)
Definition new_object : M loc := fun s =>
  (inr (next_id s), mkState (heap s) (channel_log s) (Pos.succ (next_id s))).

(** The error Python raises when [**options] repeats the keyword [args]. *)
Definition duplicate_args : exn :=
  TypeError
    "execute_activity() got multiple values for keyword argument 'args'".

(** A state whose channel has received one more call. *)
Definition logged (c : Call) (s : State) : State :=
  mkState (heap s) (channel_log s ++ [c]) (next_id s).

(** The call expression
    [await workflow.execute_activity(activity, args=args, **options)].
    Python merges [**options] into the keywords of the call before the
    callee runs; a second [args] is a [TypeError] raised at the call site. *)
Definition workflow_execute_activity (chan : Channel) (activity : Callable)
    (args : list argument) (options : kwargs) : M value :=
  fun s =>
    if has_key "args" options then (inl duplicate_args, s)
    else
      let c := mkCall activity args options in
      (chan s c, logged c s).

(* ================================================================== *)
(** ** [activity_as_tool] *)
(* ================================================================== *)

(** The body of the closure [tool_wrapper] (parameters [*args] and
    [**kwargs]); [activity_def] and [activity_options] are its free
    variables. *)
Definition tool_wrapper (chan : Channel) (activity_def : Callable)
    (activity_options : kwargs) (args : list value) (kw : kwargs) : M value :=
  fun s =>
    match
      workflow_execute_activity chan activity_def
        (map by_value
           (if dict_truthy kw then args ++ dict_values kw else args))
        activity_options s
    with
    | (inl e, s') => (inl (coroutine_raised e), s')
    | (inr v, s') => (inr v, s')
    end.

(** The function object [activity_as_tool] returns. *)
Record Tool := mkTool {
  tool_id : loc;                        (* the object's identity *)
  tool_activity_def : Callable;         (* closure cell *)
  tool_activity_options : kwargs;       (* closure cell *)
  tool_doc : option string;             (* [__doc__] *)
  tool_name : string;                   (* [__name__] *)
  tool_annotations : list (string * string);   (* [__annotations__] *)
  tool_signature : Signature            (* what [inspect.signature] reports *)
}.

(** [tool_wrapper] as [def] leaves it: parameters [*args], [**kwargs],
    return annotation [Any]. *)
Definition wrapper_annotations : list (string * string) :=
  [("return", "Any")].
Definition wrapper_signature : Signature :=
  mkSignature [("*args", ""); ("**kwargs", "")] "Any".

(** [annotations.get(name, empty)] *)
Definition annotation_of (name : string) (annotations : list (string * string))
    : string :=
  match find (fun kv => String.eqb name (fst kv)) annotations with
  | Some kv => snd kv
  | None => ""
  end.

(** [inspect.signature(tool_wrapper)] when no [__signature__] was set: the
    parameters are those of its code, [*args] and [**kwargs], and the
    annotations are looked up in whatever [__annotations__] now holds. *)
Definition signature_from_function (annotations : list (string * string))
    : Signature :=
  mkSignature
    [("*args", annotation_of "args" annotations);
     ("**kwargs", annotation_of "kwargs" annotations)]
    (annotation_of "return" annotations).

(** [getattr(activity_def, "name", activity_def.__name__)]: the default is
    an argument, evaluated before [getattr] looks for [name]. *)
Definition getattr_name (activity_def : Callable) : M value :=
  match dunder_name activity_def with
  | None => raise (AttributeError "object has no attribute '__name__'")
  | Some n =>
      match attr_name activity_def with
      | Some v => ret v
      | None => ret (VStr n)
      end
  end.

(** [tool_wrapper.__name__ = v] *)
Definition as_function_name (v : value) : M string :=
  match v with
  | VStr s => ret s
  | _ => raise (TypeError "__name__ must be set to a string object")
  end.

Definition activity_as_tool (activity_def : Callable)
    (activity_options : kwargs) : M Tool :=
  let! id := new_object in
  let doc := dunder_doc activity_def in
  let! v := getattr_name activity_def in
  let! name := as_function_name v in
  let annotations :=
    match dunder_annotations activity_def with
    | Some a => a
    | None => wrapper_annotations
    end in
  let signature :=
    match inspect_signature activity_def with
    | Some sg => sg
    | None => signature_from_function annotations
    end in
  ret (mkTool id activity_def activity_options doc name annotations signature).

(** Calling the tool. *)
Definition tool_call (chan : Channel) (t : Tool) (args : list value)
    (kw : kwargs) : M value :=
  tool_wrapper chan (tool_activity_def t) (tool_activity_options t) args kw.

(** What the orchestration engine reads off a tool to build its schema. *)
Definition tool_metadata (t : Tool)
    : string * option string * list (string * string) * Signature :=
  (tool_name t, tool_doc t, tool_annotations t, tool_signature t).

(* ================================================================== *)
(** ** [generate_content_activity] *)
(* ================================================================== *)

(** [google.adk.models] is imported, not defined here: a backend is what
    its [generate_content_async] produces for a request, fragments first,
    then normal exhaustion or a failure; the registry resolves a model name
    to a backend or raises. *)
Record Llm := mkLlm {
  llm_generate_content_async : LlmRequest -> list value * option exn
}.

Definition LLMRegistry : Type := string -> exn + Llm.

(** The default unit of work, run by a worker on its own copy of the
    request. *)
Definition generate_content_activity (new_llm : LLMRegistry)
    (request : LlmRequest) : exn + list value :=
  if negb (str_truthy (model request)) then
    inl (ValueError
      "LlmRequest.model must be set when using generate_content_activity.")
  else
    match new_llm (default "" (model request)) with
    | inl e => inl e
    | inr llm =>
        (* [[response async for response in ...]] *)
        let '(responses, failure) := llm_generate_content_async llm request in
        match failure with
        | Some e => inl e
        | None => inr responses
        end
    end.

(** The function object [generate_content_activity] itself. *)
Definition generate_content_activity_def : Callable :=
  mkCallable
    (Some "generate_content_activity")
    None
    (Some "Generic activity to invoke an LLM via ADK's LLMRegistry.
    
    The model name is expected to be in `request.model`.
    ")
    (Some [("request", "LlmRequest"); ("return", "List[LlmResponse]")])
    (Some (mkSignature [("request", "LlmRequest")] "List[LlmResponse]")).

(* ================================================================== *)
(** ** [TemporalModel] *)
(* ================================================================== *)

Module TemporalModel.

Record t := mk {
  model : string;                 (* [BaseLlm.model] *)
  activity_def : Callable;
  activity_options : kwargs
}.

(** [TemporalModel(model_name, activity_def=generate_content_activity,
    **activity_options)] *)
Definition __init__ (model_name : string) (activity_def : option Callable)
    (activity_options : kwargs) : t :=
  mk model_name (default generate_content_activity_def activity_def)
     activity_options.

(** An async generator object: created by the call, advanced by
    [__anext__]. *)
Inductive async_generator :=
| created (self : t) (llm_request : loc) (stream : bool)
    (* the body has not started *)
| suspended (rest : list value)
    (* stopped at [yield response]; [rest] is still to be visited *)
| closed.

Inductive anext_result :=
| Yield (v : value)
| StopAsyncIteration
| Raise (e : exn).

(** Calling an async generator function runs none of its body. *)
Definition generate_content_async (self : t) (llm_request : loc)
    (stream : bool) : async_generator :=
  created self llm_request stream.

(** The body up to the [for] statement's iterator. *)
Definition before_loop (chan : Channel) (self : t) (llm_request : loc)
    (stream : bool) : M (list value) :=
  let! m := get_model llm_request in
  do! (if negb (str_truthy m)
       then set_model llm_request (Some (model self))
       else ret tt) in
  let! responses :=
    workflow_execute_activity chan (activity_def self)
      [by_reference llm_request] (activity_options self) in
  match py_iter responses with
  | inl e => raise e
  | inr items => ret items
  end.

(** [for response in responses: yield response], from where it stands. *)
Definition loop (items : list value) : anext_result * async_generator :=
  match items with
  | [] => (StopAsyncIteration, closed)
  | response :: rest => (Yield response, suspended rest)
  end.

(** [await gen.__anext__()] *)
Definition anext (chan : Channel) (g : async_generator) (s : State)
    : anext_result * async_generator * State :=
  match g with
  | created self llm_request stream =>
      match before_loop chan self llm_request stream s with
      | (inl e, s') => (Raise (agen_raised e), closed, s')
      | (inr items, s') => (loop items, s')
      end
  | suspended rest => (loop rest, s)
  | closed => (StopAsyncIteration, closed, s)
  end.

(** How a consumer's loop ended. *)
Inductive ending :=
| Exhausted             (* the generator returned *)
| Failed (e : exn)      (* the generator raised [e] *)
| Pending.              (* the consumer gave up first *)

(** [async for r in gen: results.append(r)], giving up after [fuel]
    steps. *)
Fixpoint async_for (fuel : nat) (chan : Channel) (g : async_generator)
    (s : State) : list value * ending * State :=
  match fuel with
  | O => ([], Pending, s)
  | S fuel' =>
      match anext chan g s with
      | (Yield v, g', s') =>
          let '(vs, e, s'') := async_for fuel' chan g' s' in
          (v :: vs, e, s'')
      | (StopAsyncIteration, _, s') => ([], Exhausted, s')
      | (Raise e, _, s') => ([], Failed e, s')
      end
  end.

(** [default_activities()] *)
Definition default_activities : list Callable :=
  [generate_content_activity_def].

End TemporalModel.

(* ================================================================== *)
(** ** Where the generator stands when it awaits the channel *)
(* ================================================================== *)

(** The request after [if not llm_request.model: llm_request.model =
    self.model]. *)
Definition request_at_dispatch (self : TemporalModel.t) (r : LlmRequest)
    : LlmRequest :=
  if str_truthy (model r) then r
  else with_model r (Some (TemporalModel.model self)).

(** The state after that statement, in which the channel is called. *)
Definition state_at_dispatch (self : TemporalModel.t) (l : loc) (s : State)
    : State :=
  match heap s !! l with
  | Some r =>
      if str_truthy (model r) then s
      else mkState (<[l := request_at_dispatch self r]> (heap s))
                   (channel_log s) (next_id s)
  | None => s
  end.

(** The one call the body makes. *)
Definition dispatched_call (self : TemporalModel.t) (l : loc) : Call :=
  mkCall (TemporalModel.activity_def self) [by_reference l]
         (TemporalModel.activity_options self).

(* ================================================================== *)
(** ** Sample hosts, objects and providers *)
(* ================================================================== *)

(** A worker that runs the default activity in place on the request it is
    handed, and lets its failure through as it is; any other activity
    resolves to [None]. *)
Definition inline_channel (new_llm : LLMRegistry) : Channel := fun s c =>
  match dunder_name (call_activity c), call_args c with
  | Some n, [by_reference l] =>
      if String.eqb n "generate_content_activity" then
        match heap s !! l with
        | Some r =>
            match generate_content_activity new_llm r with
            | inl e => inl e
            | inr rs => inr (VList rs)
            end
        | None => inl (ValueError "no request")
        end
      else inr VNone
  | _, _ => inr VNone
  end.

(** A channel that resolves every call to the same two fragments. *)
Definition two_fragments : Channel :=
  fun _ _ => inr (VList [VStr "R1"; VStr "R2"]).


(** A registry with one backend, [echo], which answers with one fragment. *)
Definition echo_registry : LLMRegistry := fun name =>
  if String.eqb name "echo"
  then inr (mkLlm (fun r => (map VStr (contents r), None)))
  else inl (ValueError "Model not found.").

Definition fake_activity : Callable :=
  mkCallable (Some "fake_activity") (Some (VStr "fake_activity_name"))
    (Some "My Docstring.")
    (Some [("arg", "str"); ("return", "str")])
    (Some (mkSignature [("arg", "str")] "str")).

Definition sample_state : State :=
  mkState {[ 1%positive := mkLlmRequest None ["hi"];
             2%positive := mkLlmRequest (Some "x") ["hi"];
             3%positive := mkLlmRequest (Some "") ["hi"] ]}
          [] 10%positive.

Definition sample_world : World :=
  mkWorld (fun n => if (n =? 0)%nat then 1700000000.5%float
                    else 1700000001.25%float) 0
          (fun n => Z.of_nat n * 37 + 11) 0 ∅.

(** A provider that counts its calls in a cell. *)
Definition counting_ids : Provider string := fun w =>
  let n := default 0 (cells w !! "n") in
  (if n =? 0 then "id-0" else "id-n",
   mkWorld (wall_clock w) (clock_reads w) (entropy w) (entropy_used w)
           (<["n" := n + 1]> (cells w))).

Definition frozen_clock : Provider pyfloat := fun w => (123456789.0%float, w).

(** Models: one configured as in the unit test, one with no model name
    and the default activity, one whose options shadow [args]. *)
Definition model_m : TemporalModel.t :=
  TemporalModel.__init__ "m" (Some fake_activity)
    [("schedule_to_close_timeout", VInt 50)].



Definition shadowing_options : kwargs := [("args", VList [])].

Definition shadowing_model : TemporalModel.t :=
  TemporalModel.__init__ "m" (Some fake_activity) shadowing_options.

Definition model_required : exn :=
  ValueError
    "LlmRequest.model must be set when using generate_content_activity.".

(** The tool of the unit test, and one wrapped with options that shadow
    [args]. *)
Definition fake_tool : Tool :=
  mkTool 10%positive fake_activity [("start_to_close_timeout", VInt 100)]
    (Some "My Docstring.") "fake_activity_name"
    [("arg", "str"); ("return", "str")]
    (mkSignature [("arg", "str")] "str").

Definition shadowing_tool : Tool :=
  mkTool 10%positive fake_activity shadowing_options
    (Some "My Docstring.") "fake_activity_name"
    [("arg", "str"); ("return", "str")]
    (mkSignature [("arg", "str")] "str").

(** [len], a builtin: it has a [__name__] and a docstring, and
    [inspect.signature] may refuse it. *)
Definition builtin_len : Callable :=
  mkCallable (Some "len") None
    (Some "Return the number of items in a container.") None None.

(** The mocks of the unit tests. *)
Definition mock_result_channel : Channel :=
  fun _ _ => inr (VStr "mock_result").

Definition test_resp_channel : Channel :=
  fun _ _ => inr (VList [VStr "test_resp"]).

Definition test_model : TemporalModel.t :=
  TemporalModel.__init__ "test-model" (Some fake_activity)
    [("schedule_to_close_timeout", VInt 50)].

Definition test_state : State :=
  mkState {[ 1%positive := mkLlmRequest (Some "test-model") ["hi"] ]}
          [] 2%positive.





(** Programs that swap one slot while the other is in use. *)
Definition busy_with_ids : list api_call :=
  [platform_time_get_time;
   platform_uuid_set_id_provider counting_ids;
   platform_uuid_new_uuid;
   platform_uuid_reset_id_provider;
   runtime_set_time_provider time_time;
   platform_time_get_time].

Definition busy_with_time : list api_call :=
  [platform_uuid_new_uuid;
   platform_time_set_time_provider frozen_clock;
   platform_time_get_time;
   platform_time_reset_time_provider;
   runtime_set_id_provider counting_ids;
   platform_uuid_new_uuid].

(** A program that resets both platform slots and never calls a setter of
    [runtime]. *)
Definition platform_resets : list api_call :=
  [runtime_get_time;
   platform_time_set_time_provider time_time;
   platform_time_reset_time_provider;
   platform_uuid_reset_id_provider;
   runtime_new_uuid].

(** The process and the world after a program of API calls. *)
Definition process_after (cs : list api_call) (P : Process) (w : World)
    : Process :=
  snd (fst (calls cs P w)).

Definition world_after (cs : list api_call) (P : Process) (w : World)
    : World :=
  snd (calls cs P w).

Definition results_of (cs : list api_call) (P : Process) (w : World)
    : list api_result :=
  fst (fst (calls cs P w)).

(* ================================================================== *)
(** ** Vocabulary for further properties *)
(* ================================================================== *)

(** Lines 84-85 of [generate_content_activity]: resolve the backend under
    [name], drive it on [request], keep everything or nothing. *)
Definition resolve_and_collect (new_llm : LLMRegistry) (name : string)
    (request : LlmRequest) : exn + list value :=
  match new_llm name with
  | inl e => inl e
  | inr llm =>
      match llm_generate_content_async llm request with
      | (_, Some e) => inl e
      | (responses, None) => inr responses
      end
  end.

(** What the tests' [tearDown] methods call: the two resets of
    [platform/], and for [runtime], which has none, its setters on the
    built-in sources. *)
Definition teardown : list api_call :=
  [platform_time_reset_time_provider;
   platform_uuid_reset_id_provider;
   runtime_set_time_provider time_time;
   runtime_set_id_provider str_uuid4].

(** The function of [platform/] that has the name and body of a function
    of [runtime]. *)
Definition mirror (c : api_call) : api_call :=
  match c with
  | runtime_set_time_provider p => platform_time_set_time_provider p
  | runtime_set_id_provider q => platform_uuid_set_id_provider q
  | runtime_get_time => platform_time_get_time
  | runtime_new_uuid => platform_uuid_new_uuid
  | c => c
  end.

(** Calls that only read. *)
Definition is_getter (c : api_call) : bool :=
  match c with
  | platform_time_get_time | platform_uuid_new_uuid
  | runtime_get_time | runtime_new_uuid => true
  | _ => false
  end.

(** Two worlds in which a workflow has recorded the same history; their
    clocks and entropy may differ, as they do between a run and its
    replay. *)
Definition same_history (w1 w2 : World) : Prop := cells w1 = cells w2.

(** A provider that answers from the recorded history alone, like
    [lambda: workflow.now().timestamp()]. *)
Definition replayable {A} (p : Provider A) : Prop :=
  forall w1 w2, same_history w1 w2 ->
    fst (p w1) = fst (p w2) /\ same_history (snd (p w1)) (snd (p w2)).

(** The registry after a call; no call needs the world to find it. *)
Definition installs (c : api_call) (P : Process) : Process :=
  let pt := mod_platform_time P in
  let pu := mod_platform_uuid P in
  let rt := mod_runtime P in
  match c with
  | platform_time_set_time_provider p =>
      mkProcess (platform_time.set_time_provider p pt) pu rt
  | platform_time_reset_time_provider =>
      mkProcess (platform_time.reset_time_provider pt) pu rt
  | platform_uuid_set_id_provider q =>
      mkProcess pt (platform_uuid.set_id_provider q pu) rt
  | platform_uuid_reset_id_provider =>
      mkProcess pt (platform_uuid.reset_id_provider pu) rt
  | runtime_set_time_provider p =>
      mkProcess pt pu (runtime.set_time_provider p rt)
  | runtime_set_id_provider q =>
      mkProcess pt pu (runtime.set_id_provider q rt)
  | _ => P
  end.

(** The provider a getter runs is replayable. *)
Definition reads_replayable (c : api_call) (P : Process) : Prop :=
  match c with
  | platform_time_get_time =>
      replayable (platform_time._time_provider (mod_platform_time P))
  | platform_uuid_new_uuid =>
      replayable (platform_uuid._id_provider (mod_platform_uuid P))
  | runtime_get_time => replayable (runtime._time_provider (mod_runtime P))
  | runtime_new_uuid => replayable (runtime._id_provider (mod_runtime P))
  | _ => True
  end.

(** Every read of a program finds a replayable provider in its slot. *)
Fixpoint replay_safe (cs : list api_call) (P : Process) : Prop :=
  match cs with
  | [] => True
  | c :: cs' => reads_replayable c P /\ replay_safe cs' (installs c P)
  end.

(** A second world: another clock, other entropy, the same history. *)
Definition replay_world : World :=
  mkWorld (fun _ => 42.0%float) 7 (fun n => Z.of_nat n * 5 + 3) 100 ∅.

(** The workflow of the integration test installs its own sources. *)
Definition workflow_setup : list api_call :=
  [runtime_set_time_provider frozen_clock;
   runtime_set_id_provider counting_ids].

Definition workflow_reads : list api_call :=
  [runtime_get_time; runtime_new_uuid; runtime_new_uuid; runtime_get_time].

(* ================================================================== *)
(** * Properties of the provider registry *)
(* ================================================================== *)

Section Registry.

Implicit Types (c : api_call) (cs : list api_call) (P : Process) (w : World).

Lemma calls_cons c cs P w :
  calls (c :: cs) P w =
  (fst (fst (call c P w))
     :: results_of cs (snd (fst (call c P w))) (snd (call c P w)),
   process_after cs (snd (fst (call c P w))) (snd (call c P w)),
   world_after cs (snd (fst (call c P w))) (snd (call c P w))).
Proof.
  unfold results_of, process_after, world_after. simpl.
  destruct (call c P w) as [[r P1] w1]. simpl.
  destruct (calls cs P1 w1) as [[rs P2] w2]. reflexivity.
Qed.

Lemma process_after_cons c cs P w :
  process_after (c :: cs) P w =
  process_after cs (snd (fst (call c P w))) (snd (call c P w)).
Proof. unfold process_after at 1. rewrite calls_cons. reflexivity. Qed.

(** Each call leaves alone the globals it does not write. *)
Ltac frame_of_call c P w :=
  destruct c; simpl in *; try discriminate; try reflexivity;
  match goal with
  | |- context [let '(_, _) := ?x in _] => destruct x; reflexivity
  end.

Lemma call_frame_platform_time c P w :
  writes_platform_time c = false ->
  mod_platform_time (snd (fst (call c P w))) = mod_platform_time P.
Proof. intros H. frame_of_call c P w. Qed.

Lemma call_frame_platform_uuid c P w :
  writes_platform_uuid c = false ->
  mod_platform_uuid (snd (fst (call c P w))) = mod_platform_uuid P.
Proof. intros H. frame_of_call c P w. Qed.

Lemma call_frame_runtime_time c P w :
  writes_runtime_time c = false ->
  runtime._time_provider (mod_runtime (snd (fst (call c P w)))) =
  runtime._time_provider (mod_runtime P).
Proof. intros H. frame_of_call c P w. Qed.

Lemma call_frame_runtime_id c P w :
  writes_runtime_id c = false ->
  runtime._id_provider (mod_runtime (snd (fst (call c P w)))) =
  runtime._id_provider (mod_runtime P).
Proof. intros H. frame_of_call c P w. Qed.

Lemma call_frame_runtime c P w :
  is_runtime_call c = false ->
  mod_runtime (snd (fst (call c P w))) = mod_runtime P.
Proof. intros H. frame_of_call c P w. Qed.

(** A program none of whose calls writes a slot leaves the slot as it
    was. *)
Lemma calls_frame {A} (proj : Process -> A) (writes : api_call -> bool) :
  (forall c P w, writes c = false ->
     proj (snd (fst (call c P w))) = proj P) ->
  forall cs P w,
    forallb (fun c => negb (writes c)) cs = true ->
    proj (process_after cs P w) = proj P.
Proof.
  intros Hstep cs. induction cs as [|c cs IH]; intros P w Hcs.
  - reflexivity.
  - simpl in Hcs. apply andb_true_iff in Hcs as [Hc Hcs].
    apply negb_true_iff in Hc.
    rewrite process_after_cons, IH by exact Hcs.
    apply Hstep, Hc.
Qed.

End Registry.

(* ================================================================== *)
(** * The built-in identifier is a version-4 UUID *)
(* ================================================================== *)

Section Uuid4.

Lemma nibble_range x s : 0 <= Z.land (Z.shiftr x s) 15 < 16.
Proof.
  change 15 with (Z.ones 4). rewrite Z.land_ones by lia.
  apply Z.mod_pos_bound. reflexivity.
Qed.

Lemma is_hex_hex_digit n : 0 <= n < 16 -> is_hex (hex_digit n) = true.
Proof.
  intros H.
  assert (Hn : In n [0;1;2;3;4;5;6;7;8;9;10;11;12;13;14;15]) by (simpl; lia).
  simpl in Hn.
  repeat (destruct Hn as [<- | Hn]; [reflexivity|]). destruct Hn.
Qed.

Lemma is_hex_hex_at x k : is_hex (hex_at x k) = true.
Proof. apply is_hex_hex_digit, nibble_range. Qed.

(** Bits of the masks at fixed positions, by evaluation. *)
Ltac eval_const_bits :=
  repeat match goal with
  | |- context [Z.testbit (Z.shiftl ?a ?b) ?c] =>
      let v := eval vm_compute in (Z.testbit (Z.shiftl a b) c) in
      change (Z.testbit (Z.shiftl a b) c) with v
  end;
  repeat match goal with
  | |- context [Z.testbit (Zpos ?a) ?c] =>
      let v := eval vm_compute in (Z.testbit (Zpos a) c) in
      change (Z.testbit (Zpos a) c) with v
  end.

Ltac low_nibble_cases n :=
  let Hc := fresh "Hc" in
  assert (Hc : n = 0 \/ n = 1 \/ n = 2 \/ n = 3) by lia;
  destruct Hc as [-> | [-> | [-> | ->]]].

(** Bits 76..79 hold the version. *)
Lemma version_nibble i : Z.land (Z.shiftr (set_version4 i) 76) 15 = 4.
Proof.
  apply Z.bits_inj'. intros n Hn. unfold set_version4.
  rewrite Z.land_spec, Z.shiftr_spec, Z.lor_spec, Z.land_spec, Z.lor_spec,
    Z.land_spec, !Z.lnot_spec by lia.
  destruct (Z.ltb_spec n 4) as [Hlt|Hge].
  - low_nibble_cases n; vm_compute (_ + 76); eval_const_bits;
      destruct (Z.testbit i _); reflexivity.
  - replace (Z.testbit 15 n) with false.
    2:{ symmetry. change 15 with (Z.ones 4). apply Z.ones_spec_high. lia. }
    rewrite andb_false_r. symmetry.
    apply (Z.bits_above_log2 4 n); [lia|]. simpl. lia.
Qed.

(** Bits 62..63 hold the variant [10]; bits 60..61 stay random. *)
Lemma variant_nibble i :
  Z.land (Z.shiftr (set_version4 i) 60) 15 =
  Z.lor 8 (Z.land (Z.shiftr i 60) 3).
Proof.
  apply Z.bits_inj'. intros n Hn. unfold set_version4.
  rewrite Z.land_spec, Z.shiftr_spec, Z.lor_spec, Z.land_spec, Z.lor_spec,
    Z.land_spec, !Z.lnot_spec by lia.
  rewrite (Z.lor_spec 8), Z.land_spec, Z.shiftr_spec by lia.
  destruct (Z.ltb_spec n 4) as [Hlt|Hge].
  - low_nibble_cases n; vm_compute (_ + 60); eval_const_bits;
      destruct (Z.testbit i _); reflexivity.
  - replace (Z.testbit 15 n) with false.
    2:{ symmetry. change 15 with (Z.ones 4). apply Z.ones_spec_high. lia. }
    replace (Z.testbit 3 n) with false.
    2:{ symmetry. change 3 with (Z.ones 2). apply Z.ones_spec_high. lia. }
    rewrite !andb_false_r, orb_false_r. symmetry.
    apply (Z.bits_above_log2 8 n); [lia|]. simpl. lia.
Qed.

Lemma version_digit i : Ascii.eqb (hex_at (set_version4 i) 12) "4" = true.
Proof.
  unfold hex_at. change (4 * (31 - Z.of_nat 12)) with 76.
  rewrite version_nibble. reflexivity.
Qed.

Lemma variant_digit i :
  existsb (Ascii.eqb (hex_at (set_version4 i) 16))
          (list_ascii_of_string "89ab") = true.
Proof.
  unfold hex_at. change (4 * (31 - Z.of_nat 16)) with 60.
  rewrite variant_nibble.
  assert (H : 0 <= Z.land (Z.shiftr i 60) 3 < 4).
  { change 3 with (Z.ones 2). rewrite Z.land_ones by lia.
    apply Z.mod_pos_bound. reflexivity. }
  assert (Hn : In (Z.land (Z.shiftr i 60) 3) [0;1;2;3]) by (simpl; lia).
  simpl in Hn.
  repeat (destruct Hn as [<- | Hn]; [reflexivity|]). destruct Hn.
Qed.

Lemma uuid_str_is_uuid4 i :
  is_uuid4_string (uuid_str (set_version4 i)) = true.
Proof.
  unfold is_uuid4_string, uuid_str.
  rewrite list_ascii_of_string_of_list_ascii.
  cbn [hex32 seq map firstn skipn app length Nat.eqb andb forallb nth
       existsb orb].
  rewrite version_digit, variant_digit, !is_hex_hex_at. reflexivity.
Qed.

(** Whatever the entropy, [str(uuid.uuid4())] has the version-4 shape. *)
Lemma str_uuid4_shape w : is_uuid4_string (fst (str_uuid4 w)) = true.
Proof. unfold str_uuid4. simpl. apply uuid_str_is_uuid4. Qed.

(** Sums of two numerals, by evaluation. *)
Ltac eval_sums :=
  repeat match goal with
  | |- context [Z.testbit ?x (?a + ?b)] =>
      let v := eval vm_compute in (a + b) in
      change (a + b) with v
  end.

(** One digit that the version and variant masks leave alone. *)
Ltac nibble_untouched_at sh :=
  let n := fresh "n" in
  let Hn := fresh "Hn" in
  let Hlt := fresh "Hlt" in
  apply Z.bits_inj'; intros n Hn; unfold set_version4;
  rewrite !Z.land_spec, !Z.shiftr_spec, !Z.lor_spec, !Z.land_spec,
    !Z.lor_spec, !Z.land_spec, !Z.lnot_spec by lia;
  destruct (Z.ltb_spec n 4) as [Hlt|Hlt];
  [ low_nibble_cases n; eval_sums; eval_const_bits;
    destruct (Z.testbit _ _); reflexivity
  | replace (Z.testbit 15 n) with false
      by (symmetry; change 15 with (Z.ones 4); apply Z.ones_spec_high; lia);
    rewrite !andb_false_r; reflexivity ].

(** The masks touch digits 12 and 16 only. *)
Lemma other_digits i k :
  (k < 32)%nat -> k <> 12%nat -> k <> 16%nat ->
  hex_at (set_version4 i) k = hex_at i k.
Proof.
  intros Hk H12 H16. unfold hex_at. f_equal.
  do 32 (destruct k as [|k];
    [ first [ exfalso; lia
            | match goal with
              | |- Z.land (Z.shiftr _ ?sh) 15 = _ =>
                  let v := eval vm_compute in sh in
                  change sh with v; nibble_untouched_at v
              end ]
    | ]).
  exfalso. lia.
Qed.

Lemma int_from_bytes_snoc bs b :
  int_from_bytes (bs ++ [b]) = int_from_bytes bs * 256 + b.
Proof. unfold int_from_bytes. rewrite fold_left_app. reflexivity. Qed.

Lemma int_from_bytes_nonneg bs :
  Forall (fun b => 0 <= b < 256) bs -> 0 <= int_from_bytes bs.
Proof.
  induction bs as [|b bs IH] using rev_ind; intros H; [reflexivity|].
  apply List.Forall_app in H as [Hbs Hb]. inversion Hb; subst.
  rewrite int_from_bytes_snoc. specialize (IH Hbs). lia.
Qed.

(** Byte [j] of the integer, counted from the most significant. *)
Lemma int_from_bytes_byte bs : forall j,
  Forall (fun b => 0 <= b < 256) bs ->
  (j < Datatypes.length bs)%nat ->
  Z.land (Z.shiftr (int_from_bytes bs)
            (8 * Z.of_nat (Datatypes.length bs - 1 - j))) 255 = nth j bs 0.
Proof.
  induction bs as [|b bs IH] using rev_ind; intros j Hbs Hj;
    [simpl in Hj; lia|].
  apply List.Forall_app in Hbs as [Hbs Hb]. inversion Hb as [|? ? Hb0 _]; subst.
  rewrite length_app in *. change (Datatypes.length [b]) with 1%nat in *.
  rewrite int_from_bytes_snoc.
  change 255 with (Z.ones 8).
  destruct (Nat.eq_dec j (Datatypes.length bs)) as [->|Hne].
  - replace (Datatypes.length bs + 1 - 1 - Datatypes.length bs)%nat
      with 0%nat by lia.
    change (8 * Z.of_nat 0) with 0.
    rewrite Z.shiftr_0_r, Z.land_ones by lia.
    rewrite nth_middle.
    change (2 ^ 8) with 256. rewrite Z.add_comm, Z.mod_add by lia.
    apply Z.mod_small. lia.
  - replace (Datatypes.length bs + 1 - 1 - j)%nat
      with (S (Datatypes.length bs - 1 - j))%nat by lia.
    rewrite Nat2Z.inj_succ.
    replace (8 * Z.succ (Z.of_nat (Datatypes.length bs - 1 - j)))
      with (8 + 8 * Z.of_nat (Datatypes.length bs - 1 - j)) by lia.
    rewrite <- Z.shiftr_shiftr by lia.
    replace (Z.shiftr (int_from_bytes bs * 256 + b) 8)
      with (int_from_bytes bs).
    2:{ rewrite Z.shiftr_div_pow2 by lia. change (2 ^ 8) with 256.
        rewrite Z.add_comm, Z.div_add by lia.
        rewrite Z.div_small by lia. reflexivity. }
    change (Z.ones 8) with 255. rewrite IH by (try assumption; lia).
    rewrite app_nth1 by lia. reflexivity.
Qed.

(** The two hexadecimal digits of a byte. *)
Lemma nibbles_of_byte x m :
  0 <= m ->
  Z.land (Z.shiftr x (m + 4)) 15 = Z.land (Z.shiftr x m) 255 / 16
  /\ Z.land (Z.shiftr x m) 15 = Z.land (Z.shiftr x m) 255 mod 16.
Proof.
  intros Hm.
  rewrite <- Z.shiftr_shiftr by lia.
  generalize (Z.shiftr x m). intros y.
  change 15 with (Z.ones 4). change 255 with (Z.ones 8).
  rewrite !Z.land_ones by lia. rewrite Z.shiftr_div_pow2 by lia.
  change (2 ^ 4) with 16. change (2 ^ 8) with 256.
  change 256 with (16 * 16). rewrite Z.rem_mul_r by lia.
  pose proof (Z.mod_pos_bound y 16 ltac:(lia)) as Ha.
  pose proof (Z.mod_pos_bound (y / 16) 16 ltac:(lia)) as Hb.
  generalize dependent (y mod 16). generalize dependent ((y / 16) mod 16).
  intros hi Hhi lo Hlo.
  split; Z.div_mod_to_equations; lia.
Qed.

(** The digits of sixteen bytes read big-endian: two for each byte. *)
Lemma digits_of_bytes bs j :
  Forall (fun b => 0 <= b < 256) bs ->
  Datatypes.length bs = 16%nat ->
  (j < 16)%nat ->
  hex_at (int_from_bytes bs) (2 * j) = hex_digit (nth j bs 0 / 16)
  /\ hex_at (int_from_bytes bs) (2 * j + 1) = hex_digit (nth j bs 0 mod 16).
Proof.
  intros Hbs Hlen Hj. unfold hex_at.
  pose proof (int_from_bytes_byte bs j Hbs ltac:(lia)) as Hbyte.
  rewrite Hlen in Hbyte.
  replace (4 * (31 - Z.of_nat (2 * j)))
    with (8 * Z.of_nat (16 - 1 - j) + 4) by lia.
  replace (4 * (31 - Z.of_nat (2 * j + 1)))
    with (8 * Z.of_nat (16 - 1 - j)) by lia.
  destruct (nibbles_of_byte (int_from_bytes bs) (8 * Z.of_nat (16 - 1 - j))
              ltac:(lia)) as [Hhi Hlo].
  rewrite Hhi, Hlo, Hbyte. split; reflexivity.
Qed.

Lemma os_urandom_bytes n w :
  Forall (fun b => 0 <= b < 256) (fst (os_urandom n w))
  /\ Datatypes.length (fst (os_urandom n w)) = n
  /\ forall j, (j < n)%nat ->
       nth j (fst (os_urandom n w)) 0
         = entropy w (entropy_used w + j)%nat mod 256.
Proof.
  unfold os_urandom. simpl. split; [|split].
  - apply List.Forall_forall. intros b Hb.
    apply List.in_map_iff in Hb as (i & <- & _).
    apply Z.mod_pos_bound. lia.
  - rewrite length_map, length_seq. reflexivity.
  - intros j Hj.
    set (f := fun i => entropy w (entropy_used w + i)%nat mod 256).
    rewrite (nth_indep _ 0 (f 0%nat))
      by (rewrite length_map, length_seq; exact Hj).
    rewrite (map_nth f), seq_nth by exact Hj. reflexivity.
Qed.

(** Every digit of the built-in identifier but the version and the variant
    is a digit of the entropy. *)
Lemma str_uuid4_digits w j :
  (j < 16)%nat ->
  (j <> 6%nat -> j <> 8%nat ->
   hex_at (set_version4 (int_from_bytes (fst (os_urandom 16 w)))) (2 * j)
     = hex_digit (entropy w (entropy_used w + j)%nat mod 256 / 16))
  /\ hex_at (set_version4 (int_from_bytes (fst (os_urandom 16 w))))
       (2 * j + 1)
     = hex_digit (entropy w (entropy_used w + j)%nat mod 256 mod 16).
Proof.
  intros Hj.
  destruct (os_urandom_bytes 16 w) as (Hrange & Hlen & Hnth).
  destruct (digits_of_bytes _ j Hrange Hlen Hj) as [Hhi Hlo].
  rewrite (Hnth j Hj) in Hhi, Hlo.
  split.
  - intros H6 H8. rewrite other_digits by lia. exact Hhi.
  - rewrite other_digits by lia. exact Hlo.
Qed.

End Uuid4.

(* ================================================================== *)
(** * The provider laws *)
(* ================================================================== *)

Section ProviderLaws.

Implicit Types (P : Process) (w : World) (cs : list api_call).

Lemma platform_get_time_runs_slot P w p :
  platform_time._time_provider (mod_platform_time P) = p ->
  call platform_time_get_time P w = (ret_float (fst (p w)), P, snd (p w)).
Proof.
  intros <-. simpl. unfold platform_time.get_time.
  destruct (platform_time._time_provider _ w). reflexivity.
Qed.

Lemma platform_new_uuid_runs_slot P w q :
  platform_uuid._id_provider (mod_platform_uuid P) = q ->
  call platform_uuid_new_uuid P w = (ret_str (fst (q w)), P, snd (q w)).
Proof.
  intros <-. simpl. unfold platform_uuid.new_uuid.
  destruct (platform_uuid._id_provider _ w). reflexivity.
Qed.

Lemma runtime_get_time_runs_slot P w p :
  runtime._time_provider (mod_runtime P) = p ->
  call runtime_get_time P w = (ret_float (fst (p w)), P, snd (p w)).
Proof.
  intros <-. simpl. unfold runtime.get_time.
  destruct (runtime._time_provider _ w). reflexivity.
Qed.

Lemma runtime_new_uuid_runs_slot P w q :
  runtime._id_provider (mod_runtime P) = q ->
  call runtime_new_uuid P w = (ret_str (fst (q w)), P, snd (q w)).
Proof.
  intros <-. simpl. unfold runtime.new_uuid.
  destruct (runtime._id_provider _ w). reflexivity.
Qed.

(** The slot a program ends with, when only its first call writes it. *)
Lemma slot_after_write {A} (proj : Process -> A) (writes : api_call -> bool)
    c cs P w :
  (forall c P w, writes c = false ->
     proj (snd (fst (call c P w))) = proj P) ->
  forallb (fun c => negb (writes c)) cs = true ->
  proj (process_after (c :: cs) P w) = proj (snd (fst (call c P w))).
Proof.
  intros Hstep Hcs. rewrite process_after_cons.
  apply (calls_frame proj writes Hstep), Hcs.
Qed.

(** C6. In [platform/time.py], once [set_time_provider(p)] has run, every
    [get_time()] returns exactly what [p()] returns (and does to the world
    what [p()] does) until the next [set_time_provider] or
    [reset_time_provider], whatever other calls come between, swaps of the
    identifier slot included; once [reset_time_provider()] has run,
    [get_time()] is the built-in wall clock [time.time()]: it returns the
    next reading of the system clock.  In [platform/uuid.py] the same holds
    of [set_id_provider], [reset_id_provider] and [new_uuid], whatever is
    done to the time slot meanwhile; the built-in identifier is
    [str(uuid.uuid4())], a random version-4 UUID in its canonical text
    form: it takes the next sixteen bytes of the system's entropy and uses
    them up, and every hexadecimal digit of the identifier, the version
    digit and the variant digit apart, is the corresponding half of one of
    those bytes. *)
Theorem platform_provider_law
    (p : Provider pyfloat) (q : Provider string)
    (cs_t cs_i : list api_call) (P : Process) (w w' : World) :
  forallb (fun c => negb (writes_platform_time c)) cs_t = true ->
  forallb (fun c => negb (writes_platform_uuid c)) cs_i = true ->
  let P_set_t :=
    process_after (platform_time_set_time_provider p :: cs_t) P w in
  let P_reset_t :=
    process_after (platform_time_reset_time_provider :: cs_t) P w in
  let P_set_i :=
    process_after (platform_uuid_set_id_provider q :: cs_i) P w in
  let P_reset_i :=
    process_after (platform_uuid_reset_id_provider :: cs_i) P w in
  let next16 :=
    map (fun i => entropy w' (entropy_used w' + i)%nat mod 256) (seq 0 16) in
  call platform_time_get_time P_set_t w'
    = (ret_float (fst (p w')), P_set_t, snd (p w'))
  /\ call platform_time_get_time P_reset_t w'
    = (ret_float (fst (time_time w')), P_reset_t, snd (time_time w'))
  /\ call platform_uuid_new_uuid P_set_i w'
    = (ret_str (fst (q w')), P_set_i, snd (q w'))
  /\ call platform_uuid_new_uuid P_reset_i w'
    = (ret_str (fst (str_uuid4 w')), P_reset_i, snd (str_uuid4 w'))
  /\ is_uuid4_string (fst (str_uuid4 w')) = true
  (* the built-in clock: the next reading, which is then used up *)
  /\ call platform_time_get_time P_reset_t w'
    = (ret_float (wall_clock w' (clock_reads w')), P_reset_t,
       mkWorld (wall_clock w') (S (clock_reads w')) (entropy w')
               (entropy_used w') (cells w'))
  (* the built-in identifier: the next sixteen bytes, which are used up *)
  /\ call platform_uuid_new_uuid P_reset_i w'
    = (ret_str (uuid_str (set_version4 (int_from_bytes next16))), P_reset_i,
       mkWorld (wall_clock w') (clock_reads w') (entropy w')
               (entropy_used w' + 16)%nat (cells w'))
  (* and its digits are theirs *)
  /\ (forall j, (j < 16)%nat ->
       (j <> 6%nat -> j <> 8%nat ->
        hex_at (set_version4 (int_from_bytes next16)) (2 * j)
          = hex_digit (entropy w' (entropy_used w' + j)%nat mod 256 / 16))
       /\ hex_at (set_version4 (int_from_bytes next16)) (2 * j + 1)
          = hex_digit (entropy w' (entropy_used w' + j)%nat mod 256 mod 16)).
Proof.
  intros Ht Hi. cbv zeta.
  pose proof (fun c => slot_after_write
    (fun P => platform_time._time_provider (mod_platform_time P))
    writes_platform_time c cs_t P w
    (fun c P w H => f_equal _ (call_frame_platform_time c P w H)) Ht) as St.
  pose proof (fun c => slot_after_write
    (fun P => platform_uuid._id_provider (mod_platform_uuid P))
    writes_platform_uuid c cs_i P w
    (fun c P w H => f_equal _ (call_frame_platform_uuid c P w H)) Hi) as Si.
  assert (Hclock : call platform_time_get_time
      (process_after (platform_time_reset_time_provider :: cs_t) P w) w'
    = (ret_float (fst (time_time w')),
       process_after (platform_time_reset_time_provider :: cs_t) P w,
       snd (time_time w'))).
  { apply platform_get_time_runs_slot. rewrite St. reflexivity. }
  assert (Hid : call platform_uuid_new_uuid
      (process_after (platform_uuid_reset_id_provider :: cs_i) P w) w'
    = (ret_str (fst (str_uuid4 w')),
       process_after (platform_uuid_reset_id_provider :: cs_i) P w,
       snd (str_uuid4 w'))).
  { apply platform_new_uuid_runs_slot. rewrite Si. reflexivity. }
  split; [|split; [|split; [|split; [|split; [|split; [|split]]]]]].
  - apply platform_get_time_runs_slot. rewrite St. reflexivity.
  - exact Hclock.
  - apply platform_new_uuid_runs_slot. rewrite Si. reflexivity.
  - exact Hid.
  - apply str_uuid4_shape.
  - rewrite Hclock. reflexivity.
  - rewrite Hid. reflexivity.
  - intros j Hj. exact (str_uuid4_digits w' j Hj).
Qed.

Lemma platform_provider_law_witness :
  (forallb (fun c => negb (writes_platform_time c)) busy_with_ids = true
   /\ forallb (fun c => negb (writes_platform_uuid c)) busy_with_time = true)
  /\ (call platform_time_get_time
        (process_after (platform_time_set_time_provider frozen_clock
                          :: busy_with_ids) fresh_process sample_world)
        sample_world
      = (ret_float 123456789.0%float,
         process_after (platform_time_set_time_provider frozen_clock
                          :: busy_with_ids) fresh_process sample_world,
         sample_world)
      /\ fst (fst (call platform_time_get_time
        (process_after (platform_time_reset_time_provider :: busy_with_ids)
           fresh_process sample_world) sample_world))
         = ret_float 1700000000.5%float
      /\ fst (fst (call platform_uuid_new_uuid
        (process_after (platform_uuid_set_id_provider counting_ids
                          :: busy_with_time) fresh_process sample_world)
        sample_world))
         = ret_str "id-0"
      /\ fst (fst (call platform_uuid_new_uuid
        (process_after (platform_uuid_reset_id_provider :: busy_with_time)
           fresh_process sample_world) sample_world))
         = ret_str "0b30557a-9fc4-490e-b358-7da2c7ec1136"
      (* the next identifier comes from the next sixteen bytes *)
      /\ fst (fst (call platform_uuid_new_uuid
        (process_after (platform_uuid_reset_id_provider :: busy_with_time)
           fresh_process sample_world)
        (snd (call platform_uuid_new_uuid
           (process_after (platform_uuid_reset_id_provider :: busy_with_time)
              fresh_process sample_world) sample_world))))
         = ret_str "5b80a5ca-ef14-495e-83a8-cdf2173c6186").
Proof.
  split; [split; reflexivity|].
  destruct (platform_provider_law frozen_clock counting_ids
              busy_with_ids busy_with_time fresh_process sample_world
              sample_world eq_refl eq_refl)
    as (H1 & H2 & H3 & H4 & _ & _ & H7 & _).
  split; [exact H1|].
  split; [rewrite H2; reflexivity|].
  split; [rewrite H3; reflexivity|].
  split; [rewrite H4; reflexivity|].
  rewrite H7.
  destruct (platform_provider_law frozen_clock counting_ids
              busy_with_ids busy_with_time fresh_process sample_world
              (mkWorld (wall_clock sample_world) (clock_reads sample_world)
                 (entropy sample_world) (entropy_used sample_world + 16)
                 (cells sample_world)) eq_refl eq_refl)
    as (_ & _ & _ & _ & _ & _ & H7' & _).
  cbn [snd]. rewrite H7'. reflexivity.
Defined.

(** C10. [runtime.py] keeps a registry of its own, apart from the one in
    [platform/]: its setters change what [runtime.get_time()] and
    [runtime.new_uuid()] return and leave the platform modules' providers
    as they were, and the platform modules' setters and resets leave
    [runtime]'s providers as they were.  [runtime] exports no reset: a
    provider installed through [runtime.set_time_provider] (or
    [runtime.set_id_provider]) stays in force through every program that
    does not call that setter again, resets of the platform modules
    included, and the only call that changes the slot is the setter. *)
Theorem runtime_registry_is_a_separate_copy
    (p : Provider pyfloat) (q : Provider string)
    (cs : list api_call) (P : Process) (w w' : World) :
  forallb (fun c => negb (writes_runtime_time c)) cs = true ->
  forallb (fun c => negb (writes_runtime_id c)) cs = true ->
  (* runtime's setters and the platform modules *)
  (forall c, In c [runtime_set_time_provider p; runtime_set_id_provider q] ->
     call platform_time_get_time (process_after [c] P w) w'
       = (fst (fst (call platform_time_get_time P w')),
          process_after [c] P w, snd (call platform_time_get_time P w'))
     /\ call platform_uuid_new_uuid (process_after [c] P w) w'
       = (fst (fst (call platform_uuid_new_uuid P w')),
          process_after [c] P w, snd (call platform_uuid_new_uuid P w')))
  (* the platform modules' setters and resets and runtime *)
  /\ (forall c, In c [platform_time_set_time_provider p;
                      platform_time_reset_time_provider;
                      platform_uuid_set_id_provider q;
                      platform_uuid_reset_id_provider] ->
     call runtime_get_time (process_after [c] P w) w'
       = (fst (fst (call runtime_get_time P w')),
          process_after [c] P w, snd (call runtime_get_time P w'))
     /\ call runtime_new_uuid (process_after [c] P w) w'
       = (fst (fst (call runtime_new_uuid P w')),
          process_after [c] P w, snd (call runtime_new_uuid P w')))
  (* what runtime's setters install stays *)
  /\ call runtime_get_time
       (process_after (runtime_set_time_provider p :: cs) P w) w'
     = (ret_float (fst (p w')),
        process_after (runtime_set_time_provider p :: cs) P w, snd (p w'))
  /\ call runtime_new_uuid
       (process_after (runtime_set_id_provider q :: cs) P w) w'
     = (ret_str (fst (q w')),
        process_after (runtime_set_id_provider q :: cs) P w, snd (q w'))
  (* only the setter changes a slot of runtime *)
  /\ (forall c,
        runtime._time_provider (mod_runtime (process_after [c] P w))
          <> runtime._time_provider (mod_runtime P) ->
        exists p', c = runtime_set_time_provider p')
  /\ (forall c,
        runtime._id_provider (mod_runtime (process_after [c] P w))
          <> runtime._id_provider (mod_runtime P) ->
        exists q', c = runtime_set_id_provider q').
Proof.
  intros Ht Hi.
  pose proof (slot_after_write
    (fun P => runtime._time_provider (mod_runtime P))
    writes_runtime_time (runtime_set_time_provider p) cs P w
    call_frame_runtime_time Ht) as St.
  pose proof (slot_after_write
    (fun P => runtime._id_provider (mod_runtime P))
    writes_runtime_id (runtime_set_id_provider q) cs P w
    call_frame_runtime_id Hi) as Si.
  split; [|split; [|split; [|split; [|split]]]].
  - intros c Hc. simpl in Hc.
    destruct Hc as [<- | [<- | []]]; split;
      first [ erewrite platform_get_time_runs_slot by reflexivity
            | erewrite platform_new_uuid_runs_slot by reflexivity ];
      first [ erewrite (platform_get_time_runs_slot P) by reflexivity
            | erewrite (platform_new_uuid_runs_slot P) by reflexivity ];
      reflexivity.
  - intros c Hc. simpl in Hc.
    destruct Hc as [<- | [<- | [<- | [<- | []]]]]; split;
      first [ erewrite runtime_get_time_runs_slot by reflexivity
            | erewrite runtime_new_uuid_runs_slot by reflexivity ];
      first [ erewrite (runtime_get_time_runs_slot P) by reflexivity
            | erewrite (runtime_new_uuid_runs_slot P) by reflexivity ];
      reflexivity.
  - apply runtime_get_time_runs_slot. rewrite St. reflexivity.
  - apply runtime_new_uuid_runs_slot. rewrite Si. reflexivity.
  - intros c Hne. destruct (writes_runtime_time c) eqn:Hw.
    + destruct c; try discriminate. eexists; reflexivity.
    + exfalso. apply Hne. rewrite process_after_cons.
      apply call_frame_runtime_time, Hw.
  - intros c Hne. destruct (writes_runtime_id c) eqn:Hw.
    + destruct c; try discriminate. eexists; reflexivity.
    + exfalso. apply Hne. rewrite process_after_cons.
      apply call_frame_runtime_id, Hw.
Qed.

End ProviderLaws.

(* ================================================================== *)
(** * The generator of [TemporalModel.generate_content_async] *)
(* ================================================================== *)

Section Generator.

Implicit Types (chan : Channel) (self : TemporalModel.t) (l : loc)
  (s : State) (r : LlmRequest) (items : list value).

(** The first [__anext__] runs the body up to the first [yield]: it fills
    in the model when the request has none, then awaits the channel once,
    unless the options themselves carry [args]. *)
Lemma before_loop_unfold chan self l stream s r :
  heap s !! l = Some r ->
  TemporalModel.before_loop chan self l stream s =
    if has_key "args" (TemporalModel.activity_options self)
    then (inl duplicate_args, state_at_dispatch self l s)
    else
      (match chan (state_at_dispatch self l s) (dispatched_call self l) with
       | inl e => inl e
       | inr v => py_iter v
       end,
       logged (dispatched_call self l) (state_at_dispatch self l s)).
Proof.
  intros Hr.
  unfold TemporalModel.before_loop, bind, get_model, state_at_dispatch.
  rewrite Hr.
  destruct (str_truthy (model r)) eqn:Hm; simpl.
  - unfold workflow_execute_activity, dispatched_call.
    destruct (has_key "args" (TemporalModel.activity_options self));
      [reflexivity|].
    destruct (chan s _) as [e|v]; [reflexivity|].
    destruct (py_iter v); reflexivity.
  - unfold set_model. rewrite Hr. simpl.
    unfold workflow_execute_activity, dispatched_call, request_at_dispatch.
    rewrite Hm.
    destruct (has_key "args" (TemporalModel.activity_options self));
      [reflexivity|].
    destruct (chan _ _) as [e|v]; [reflexivity|].
    destruct (py_iter v); reflexivity.
Qed.

Lemma anext_created chan self l stream s r :
  heap s !! l = Some r ->
  TemporalModel.anext chan
    (TemporalModel.generate_content_async self l stream) s =
    if has_key "args" (TemporalModel.activity_options self)
    then (TemporalModel.Raise duplicate_args, TemporalModel.closed,
          state_at_dispatch self l s)
    else
      match chan (state_at_dispatch self l s) (dispatched_call self l) with
      | inl e =>
          (TemporalModel.Raise (agen_raised e), TemporalModel.closed,
           logged (dispatched_call self l) (state_at_dispatch self l s))
      | inr v =>
          match py_iter v with
          | inl e =>
              (TemporalModel.Raise (agen_raised e), TemporalModel.closed,
               logged (dispatched_call self l) (state_at_dispatch self l s))
          | inr items =>
              (TemporalModel.loop items,
               logged (dispatched_call self l) (state_at_dispatch self l s))
          end
      end.
Proof.
  intros Hr. unfold TemporalModel.generate_content_async. simpl.
  rewrite (before_loop_unfold _ _ _ _ _ _ Hr).
  destruct (has_key "args" _); [reflexivity|].
  destruct (chan _ _) as [e|v]; [reflexivity|].
  destruct (py_iter v); reflexivity.
Qed.

(** A generator past its first step only replays what is left. *)
Lemma async_for_suspended chan items : forall fuel s,
  (length items < fuel)%nat ->
  TemporalModel.async_for fuel chan (TemporalModel.suspended items) s =
    (items, TemporalModel.Exhausted, s).
Proof.
  induction items as [|x rest IH]; intros [|fuel] s Hfuel; simpl in *;
    try lia.
  - reflexivity.
  - rewrite IH by lia. reflexivity.
Qed.

Lemma async_for_loop chan g s s' items fuel :
  TemporalModel.anext chan g s = (TemporalModel.loop items, s') ->
  (length items < fuel)%nat ->
  TemporalModel.async_for fuel chan g s =
    (items, TemporalModel.Exhausted, s').
Proof.
  intros Hstep Hfuel. destruct fuel as [|fuel]; [lia|].
  simpl. rewrite Hstep. destruct items as [|x rest]; simpl.
  - reflexivity.
  - simpl in Hfuel. rewrite async_for_suspended by lia. reflexivity.
Qed.

(** Only the first step touches the state. *)
Lemma async_for_started chan g : forall fuel s,
  (forall self l stream, g <> TemporalModel.created self l stream) ->
  snd (TemporalModel.async_for fuel chan g s) = s.
Proof.
  intros fuel. revert g.
  induction fuel as [|fuel IH]; intros g s Hg; [reflexivity|].
  destruct g as [self l stream|rest|]; simpl.
  - exfalso. exact (Hg self l stream eq_refl).
  - destruct rest as [|x rest]; simpl; [reflexivity|].
    specialize (IH (TemporalModel.suspended rest) s).
    destruct (TemporalModel.async_for fuel chan _ s) as [[vs e] s''].
    simpl in *. apply IH. discriminate.
  - reflexivity.
Qed.

Lemma async_for_state chan self l stream fuel s :
  snd (TemporalModel.async_for (S fuel) chan
         (TemporalModel.generate_content_async self l stream) s) =
  snd (TemporalModel.anext chan
         (TemporalModel.generate_content_async self l stream) s).
Proof.
  unfold TemporalModel.generate_content_async. simpl.
  destruct (TemporalModel.before_loop chan self l stream s) as [[e|items] s'];
    simpl; [reflexivity|].
  destruct items as [|x rest]; simpl; [reflexivity|].
  pose proof (async_for_started chan (TemporalModel.suspended rest) fuel s')
    as H.
  destruct (TemporalModel.async_for fuel chan _ s') as [[vs e] s''].
  simpl in *. apply H. discriminate.
Qed.

(** The heap when the channel is called. *)
Lemma state_at_dispatch_heap self l s r :
  heap s !! l = Some r ->
  heap (state_at_dispatch self l s) =
    <[l := request_at_dispatch self r]> (heap s).
Proof.
  intros Hr. unfold state_at_dispatch, request_at_dispatch. rewrite Hr.
  destruct (str_truthy (model r)); simpl; [|reflexivity].
  symmetry. apply insert_id, Hr.
Qed.

Lemma state_at_dispatch_rest self l s :
  channel_log (state_at_dispatch self l s) = channel_log s
  /\ next_id (state_at_dispatch self l s) = next_id s.
Proof.
  unfold state_at_dispatch. destruct (heap s !! l) as [r|]; [|done].
  destruct (str_truthy (model r)); done.
Qed.

Lemma str_truthy_false m :
  str_truthy m = false <-> m = None \/ m = Some "".
Proof.
  destruct m as [x|]; simpl.
  - rewrite negb_false_iff, String.eqb_eq. split.
    + intros ->. right. reflexivity.
    + intros [H|H]; [discriminate | congruence].
  - split; [left; reflexivity | reflexivity].
Qed.

Lemma str_truthy_true m :
  str_truthy m = true <-> exists x, m = Some x /\ x <> "".
Proof.
  destruct m as [x|]; simpl.
  - rewrite negb_true_iff, String.eqb_neq. split.
    + intros H. exists x. split; [reflexivity | exact H].
    + intros (y & [= ->] & H). exact H.
  - split; [discriminate | intros (y & H & _); discriminate].
Qed.


(** C1. When [generate_content_async(r, stream)] runs, the channel is
    called with the request object [r] itself as its only argument, and in
    the state the channel sees: if [r.model] was unset ([None] or the empty
    string, what [not r.model] tests), [r.model] is the instance's
    configured model name; if the caller had set [r.model] to [x], it is
    still [x], whatever the instance's model name.  The payload of the
    request is as the caller left it. *)
Theorem dispatch_carries_the_model
    (chan : Channel) (self : TemporalModel.t) (l : loc) (stream : bool)
    (s : State) (r : LlmRequest) :
  heap s !! l = Some r ->
  (* the first step consults the channel on this call, in this state *)
  TemporalModel.anext chan
      (TemporalModel.generate_content_async self l stream) s =
    (if has_key "args" (TemporalModel.activity_options self)
     then (TemporalModel.Raise duplicate_args, TemporalModel.closed,
           state_at_dispatch self l s)
     else
       match chan (state_at_dispatch self l s) (dispatched_call self l) with
       | inl e =>
           (TemporalModel.Raise (agen_raised e), TemporalModel.closed,
            logged (dispatched_call self l) (state_at_dispatch self l s))
       | inr v =>
           match py_iter v with
           | inl e =>
               (TemporalModel.Raise (agen_raised e), TemporalModel.closed,
                logged (dispatched_call self l) (state_at_dispatch self l s))
           | inr items =>
               (TemporalModel.loop items,
                logged (dispatched_call self l) (state_at_dispatch self l s))
           end
       end)
  (* the call passes the request object *)
  /\ call_args (dispatched_call self l) = [by_reference l]
  (* and this is the object the channel finds there *)
  /\ exists r1,
       heap (state_at_dispatch self l s) !! l = Some r1
       /\ contents r1 = contents r
       /\ (model r = None \/ model r = Some "" ->
           model r1 = Some (TemporalModel.model self))
       /\ (forall x, model r = Some x -> x <> "" -> model r1 = Some x).
Proof.
  intros Hr. split; [exact (anext_created chan self l stream s r Hr)|].
  split; [reflexivity|].
  exists (request_at_dispatch self r).
  rewrite (state_at_dispatch_heap _ _ _ _ Hr), lookup_insert_eq.
  split; [reflexivity|]. unfold request_at_dispatch.
  split; [|split].
  - destruct (str_truthy (model r)); reflexivity.
  - intros H. apply str_truthy_false in H. rewrite H. reflexivity.
  - intros x Hx Hne.
    assert (Ht : str_truthy (model r) = true).
    { apply str_truthy_true. exists x. split; assumption. }
    rewrite Ht. exact Hx.
Qed.

Lemma dispatch_carries_the_model_witness :
  heap sample_state !! 1%positive = Some (mkLlmRequest None ["hi"])
  /\ exists r1,
       heap (state_at_dispatch model_m 1%positive sample_state) !! 1%positive
         = Some r1
       /\ contents r1 = ["hi"]
       /\ model r1 = Some "m".
Proof.
  split; [reflexivity|].
  destruct (dispatch_carries_the_model two_fragments model_m 1%positive true
              sample_state (mkLlmRequest None ["hi"]) eq_refl)
    as (_ & _ & r1 & H1 & H2 & H3 & _).
  exists r1. split; [exact H1|]. split; [exact H2|].
  apply H3. left. reflexivity.
Defined.

(** What a consumer collects when the one call resolves to a list. *)
Lemma response_fan_out_steps chan self l stream s r items fuel :
  heap s !! l = Some r ->
  has_key "args" (TemporalModel.activity_options self) = false ->
  chan (state_at_dispatch self l s) (dispatched_call self l)
    = inr (VList items) ->
  (length items < fuel)%nat ->
  TemporalModel.async_for fuel chan
      (TemporalModel.generate_content_async self l stream) s
    = (items, TemporalModel.Exhausted,
       logged (dispatched_call self l) (state_at_dispatch self l s)).
Proof.
  intros Hr Hopts Hchan Hfuel.
  apply async_for_loop; [|exact Hfuel].
  rewrite (anext_created _ _ _ _ _ _ Hr), Hopts, Hchan. reflexivity.
Qed.

(** C2. If the channel resolves the one call of a generation to a list of
    [k] fragments, a consumer that iterates the generator to its end
    receives exactly those [k] fragments, in the channel's order, each
    once, and then the end of the iteration. *)
Theorem response_fan_out
    (chan : Channel) (self : TemporalModel.t) (l : loc) (stream : bool)
    (s : State) (r : LlmRequest) (items : list value) (fuel : nat) :
  heap s !! l = Some r ->
  has_key "args" (TemporalModel.activity_options self) = false ->
  chan (state_at_dispatch self l s) (dispatched_call self l)
    = inr (VList items) ->
  (length items < fuel)%nat ->
  TemporalModel.async_for fuel chan
      (TemporalModel.generate_content_async self l stream) s
    = (items, TemporalModel.Exhausted,
       logged (dispatched_call self l) (state_at_dispatch self l s))
  /\ length (fst (fst (TemporalModel.async_for fuel chan
        (TemporalModel.generate_content_async self l stream) s)))
     = length items.
Proof.
  intros Hr Hopts Hchan Hfuel.
  rewrite (response_fan_out_steps chan self l stream s r items fuel
             Hr Hopts Hchan Hfuel).
  split; reflexivity.
Qed.

Lemma response_fan_out_witness :
  (heap sample_state !! 1%positive = Some (mkLlmRequest None ["hi"])
   /\ has_key "args" (TemporalModel.activity_options model_m) = false
   /\ two_fragments (state_at_dispatch model_m 1%positive sample_state)
        (dispatched_call model_m 1%positive)
      = inr (VList [VStr "R1"; VStr "R2"])
   /\ (length [VStr "R1"; VStr "R2"] < 3)%nat)
  /\ fst (TemporalModel.async_for 3 two_fragments
        (TemporalModel.generate_content_async model_m 1%positive false)
        sample_state)
     = ([VStr "R1"; VStr "R2"], TemporalModel.Exhausted).
Proof.
  assert (Hfuel : (length [VStr "R1"; VStr "R2"] < 3)%nat)
    by (apply Nat.ltb_lt; reflexivity).
  split; [repeat split; try reflexivity; exact Hfuel|].
  destruct (response_fan_out two_fragments model_m 1%positive false
              sample_state (mkLlmRequest None ["hi"])
              [VStr "R1"; VStr "R2"] 3 eq_refl eq_refl eq_refl Hfuel)
    as [H _].
  rewrite H. reflexivity.
Defined.


(** The state the first step leaves; later steps leave it alone. *)
Lemma anext_created_state chan self l stream s r :
  heap s !! l = Some r ->
  snd (TemporalModel.anext chan
         (TemporalModel.generate_content_async self l stream) s) =
    if has_key "args" (TemporalModel.activity_options self)
    then state_at_dispatch self l s
    else logged (dispatched_call self l) (state_at_dispatch self l s).
Proof.
  intros Hr. rewrite (anext_created chan self l stream s r Hr).
  destruct (has_key "args" _); [reflexivity|].
  destruct (chan _ _) as [e|v]; [reflexivity|].
  destruct (py_iter v); reflexivity.
Qed.

(** C9. [generate_content_async] works on the caller's request object, not
    on a copy: the argument of the dispatch is a reference to that very
    object and no object is created; once the first step has run (and
    through the rest of the iteration) the caller's object has the
    instance's model name in [model] if it had none, with its payload and
    every other object as they were; if [model] was set, nothing on the
    heap has changed. *)
Theorem request_is_mutated_in_place
    (chan : Channel) (self : TemporalModel.t) (l : loc) (stream : bool)
    (s : State) (r : LlmRequest) (fuel : nat) :
  heap s !! l = Some r ->
  let after_step :=
    snd (TemporalModel.anext chan
           (TemporalModel.generate_content_async self l stream) s) in
  let after_run :=
    snd (TemporalModel.async_for (S fuel) chan
           (TemporalModel.generate_content_async self l stream) s) in
  after_run = after_step
  /\ channel_log after_step =
       (channel_log s ++
         (if has_key "args" (TemporalModel.activity_options self) then []
          else [mkCall (TemporalModel.activity_def self) [by_reference l]
                       (TemporalModel.activity_options self)]))%list
  /\ next_id after_step = next_id s
  /\ (model r = None \/ model r = Some "" ->
      heap after_step =
        <[l := mkLlmRequest (Some (TemporalModel.model self)) (contents r)]>
          (heap s))
  /\ (forall x, model r = Some x -> x <> "" -> heap after_step = heap s).
Proof.
  intros Hr. cbv zeta. rewrite async_for_state.
  rewrite (anext_created_state chan self l stream s r Hr).
  pose proof (state_at_dispatch_heap self l s r Hr) as Hheap.
  destruct (state_at_dispatch_rest self l s) as [Hlog Hid].
  split; [reflexivity|].
  assert (Hh : heap (if has_key "args" (TemporalModel.activity_options self)
                     then state_at_dispatch self l s
                     else logged (dispatched_call self l)
                            (state_at_dispatch self l s))
               = <[l := request_at_dispatch self r]> (heap s)).
  { destruct (has_key "args" _); simpl; exact Hheap. }
  split; [|split; [|split]].
  - destruct (has_key "args" _); simpl; rewrite Hlog;
      [rewrite app_nil_r|]; reflexivity.
  - destruct (has_key "args" _); simpl; exact Hid.
  - intros Hm. rewrite Hh. unfold request_at_dispatch.
    apply str_truthy_false in Hm. rewrite Hm. reflexivity.
  - intros x Hx Hne. rewrite Hh. unfold request_at_dispatch.
    assert (Ht : str_truthy (model r) = true).
    { apply str_truthy_true. exists x. split; assumption. }
    rewrite Ht. apply insert_id, Hr.
Qed.

Lemma request_is_mutated_in_place_witness :
  heap sample_state !! 1%positive = Some (mkLlmRequest None ["hi"])
  /\ heap (snd (TemporalModel.async_for 3 two_fragments
              (TemporalModel.generate_content_async model_m 1%positive true)
              sample_state))
     = <[1%positive := mkLlmRequest (Some "m") ["hi"]]> (heap sample_state).
Proof.
  split; [reflexivity|].
  destruct (request_is_mutated_in_place two_fragments model_m 1%positive
              true sample_state (mkLlmRequest None ["hi"]) 2 eq_refl)
    as (H1 & _ & _ & H4 & _).
  rewrite H1. apply H4. left. reflexivity.
Defined.

Lemma async_for_S chan g s fuel :
  TemporalModel.async_for (S fuel) chan g s =
    match TemporalModel.anext chan g s with
    | (TemporalModel.Yield v, g', s') =>
        let '(vs, e, s'') := TemporalModel.async_for fuel chan g' s' in
        (v :: vs, e, s'')
    | (TemporalModel.StopAsyncIteration, _, s') =>
        ([], TemporalModel.Exhausted, s')
    | (TemporalModel.Raise e, _, s') => ([], TemporalModel.Failed e, s')
    end.
Proof. reflexivity. Qed.


(** The flag is never read. *)
Lemma stream_flag_unread chan self l s fuel :
  TemporalModel.async_for fuel chan
      (TemporalModel.generate_content_async self l true) s
  = TemporalModel.async_for fuel chan
      (TemporalModel.generate_content_async self l false) s.
Proof. destruct fuel; reflexivity. Qed.

End Generator.


(* ================================================================== *)
(** * [activity_as_tool] and its tools *)
(* ================================================================== *)

Section Tools.

Implicit Types (chan : Channel) (u : Callable) (o kw : kwargs)
  (args : list value) (s : State) (t : Tool).

(** With the annotations [def] gave it, the wrapper's signature is the one
    written down above. *)
Lemma wrapper_signature_computed :
  signature_from_function wrapper_annotations = wrapper_signature.
Proof. reflexivity. Qed.

(** The two branches of the conditional expression build the same list. *)
Lemma flattened_arguments args kw :
  (if dict_truthy kw then args ++ dict_values kw else args)%list
  = (args ++ map snd kw)%list.
Proof.
  destruct kw as [|kv kw]; simpl.
  - rewrite app_nil_r. reflexivity.
  - reflexivity.
Qed.

Lemma tool_wrapper_unfold chan u o args kw s :
  tool_wrapper chan u o args kw s =
    if has_key "args" o then (inl duplicate_args, s)
    else
      (match chan s (mkCall u (map by_value (args ++ map snd kw)) o) with
       | inl e => inl (coroutine_raised e)
       | inr v => inr v
       end,
       logged (mkCall u (map by_value (args ++ map snd kw)) o) s).
Proof.
  unfold tool_wrapper, workflow_execute_activity.
  rewrite flattened_arguments.
  destruct (has_key "args" o); [reflexivity|].
  destruct (chan s _); reflexivity.
Qed.

(** What [activity_as_tool] does, case by case. *)
Lemma activity_as_tool_unfold u o s :
  activity_as_tool u o s =
    let s' := mkState (heap s) (channel_log s) (Pos.succ (next_id s)) in
    let tool name :=
      mkTool (next_id s) u o (dunder_doc u) name
        (default wrapper_annotations (dunder_annotations u))
        (default
           (signature_from_function
              (default wrapper_annotations (dunder_annotations u)))
           (inspect_signature u)) in
    match dunder_name u with
    | None =>
        (inl (AttributeError "object has no attribute '__name__'"), s')
    | Some n =>
        match attr_name u with
        | None => (inr (tool n), s')
        | Some (VStr n') => (inr (tool n'), s')
        | Some _ =>
            (inl (TypeError "__name__ must be set to a string object"), s')
        end
    end.
Proof.
  unfold activity_as_tool, bind, new_object, getattr_name. simpl.
  destruct (dunder_name u) as [n|]; [|reflexivity].
  destruct (attr_name u) as [[| | |n'|]|]; try reflexivity;
    simpl; destruct (dunder_annotations u), (inspect_signature u);
    reflexivity.
Qed.

Lemma activity_as_tool_closure u o s t s' :
  activity_as_tool u o s = (inr t, s') ->
  tool_activity_def t = u /\ tool_activity_options t = o.
Proof.
  rewrite activity_as_tool_unfold. cbv zeta.
  destruct (dunder_name u) as [n|]; [|discriminate].
  destruct (attr_name u) as [[| | |n'|]|]; try discriminate;
    intros [= <- _]; split; reflexivity.
Qed.


(** C4, as the code has it.  A tool made by [activity_as_tool] whose
    wrap-time options do not themselves contain the keyword [args], called
    with positional arguments [p1..pn] and keyword arguments [k1=v1..km=vm],
    makes exactly one call to the channel: on the wrapped activity, with the
    argument list [p1, ..., pn, v1, ..., vm] and with the wrap-time options
    as they were given; the tool returns what that call returns, and
    raises what it raises (a [StopIteration] as a [RuntimeError], since
    the tool is a coroutine). *)
Theorem tool_forwards_arguments
    (chan : Channel) (u : Callable) (o : kwargs) (s0 s0' : State) (t : Tool)
    (args : list value) (kw : kwargs) (s : State) :
  activity_as_tool u o s0 = (inr t, s0') ->
  has_key "args" o = false ->
  tool_call chan t args kw s =
    (match chan s (mkCall u (map by_value (args ++ map snd kw)) o) with
     | inl e => inl (coroutine_raised e)
     | inr v => inr v
     end,
     logged (mkCall u (map by_value (args ++ map snd kw)) o) s)
  /\ channel_log (snd (tool_call chan t args kw s)) =
       (channel_log s ++ [mkCall u (map by_value (args ++ map snd kw)) o])%list
  /\ heap (snd (tool_call chan t args kw s)) = heap s.
Proof.
  intros Ht Ho. destruct (activity_as_tool_closure u o s0 t s0' Ht) as [Hu Ht'].
  unfold tool_call. rewrite Hu, Ht', tool_wrapper_unfold, Ho.
  repeat split.
Qed.

Lemma tool_forwards_arguments_witness :
  (activity_as_tool fake_activity [("start_to_close_timeout", VInt 100)]
     sample_state
     = (inr fake_tool,
        mkState (heap sample_state) [] 11%positive)
   /\ has_key "args" [("start_to_close_timeout", VInt 100)] = false)
  /\ channel_log (snd (tool_call two_fragments fake_tool
                         [VStr "a"; VStr "b"]
                         [("x", VInt 1); ("y", VInt 2)] sample_state))
     = [mkCall fake_activity
          [by_value (VStr "a"); by_value (VStr "b");
           by_value (VInt 1); by_value (VInt 2)]
          [("start_to_close_timeout", VInt 100)]].
Proof.
  split; [split; reflexivity|].
  destruct (tool_forwards_arguments two_fragments fake_activity
              [("start_to_close_timeout", VInt 100)] sample_state
              (mkState (heap sample_state) [] 11%positive) fake_tool
              [VStr "a"; VStr "b"] [("x", VInt 1); ("y", VInt 2)]
              sample_state eq_refl eq_refl) as (_ & H & _).
  exact H.
Defined.

(** C4 as stated fails: wrapped with an option named [args], the tool
    raises [TypeError] when called with [a, b], and the channel receives no
    call. *)
Lemma tool_with_shadowed_args_makes_no_call :
  activity_as_tool fake_activity shadowing_options sample_state
    = (inr shadowing_tool, mkState (heap sample_state) [] 11%positive)
  /\ tool_call two_fragments shadowing_tool [VStr "a"; VStr "b"] []
       sample_state
     = (inl duplicate_args, sample_state)
  /\ channel_log sample_state = [].
Proof. repeat split. Qed.




End Tools.

(* ================================================================== *)
(** * Failures, the streaming flag and the missing model name *)
(* ================================================================== *)

Section Delegation.

Implicit Types (chan : Channel) (self : TemporalModel.t) (l : loc)
  (s : State) (r : LlmRequest).





(** C7, as the code has it.  Two runs of [generate_content_async] that
    differ only in [stream] are the same run, for every instance: the same
    steps, the same fragments in the same order, the same end, the same
    final state, the same calls to the channel.  When the instance's
    options do not themselves contain the keyword [args], each run makes
    exactly one call to the channel, with no trace of the flag, and if
    that call resolves to a list, both runs produce its elements in order;
    when they do, neither run makes a call. *)
Theorem stream_flag_has_no_effect
    (chan : Channel) (self : TemporalModel.t) (l : loc)
    (s : State) (r : LlmRequest) (fuel : nat) :
  TemporalModel.anext chan
      (TemporalModel.generate_content_async self l true) s
    = TemporalModel.anext chan
      (TemporalModel.generate_content_async self l false) s
  /\ TemporalModel.async_for fuel chan
      (TemporalModel.generate_content_async self l true) s
    = TemporalModel.async_for fuel chan
      (TemporalModel.generate_content_async self l false) s
  /\ (heap s !! l = Some r ->
      has_key "args" (TemporalModel.activity_options self) = false ->
      (forall stream,
         channel_log (snd (TemporalModel.async_for (S fuel) chan
           (TemporalModel.generate_content_async self l stream) s))
         = (channel_log s ++
             [mkCall (TemporalModel.activity_def self) [by_reference l]
                     (TemporalModel.activity_options self)])%list)
      /\ (forall stream items,
           chan (state_at_dispatch self l s) (dispatched_call self l)
             = inr (VList items) ->
           (length items < fuel)%nat ->
           fst (TemporalModel.async_for fuel chan
             (TemporalModel.generate_content_async self l stream) s)
           = (items, TemporalModel.Exhausted)))
  /\ (heap s !! l = Some r ->
      has_key "args" (TemporalModel.activity_options self) = true ->
      forall stream,
        channel_log (snd (TemporalModel.async_for (S fuel) chan
          (TemporalModel.generate_content_async self l stream) s))
        = channel_log s).
Proof.
  split; [reflexivity|]. split; [apply stream_flag_unread|].
  split.
  - intros Hr Hopts. split.
    + intros stream. rewrite async_for_state.
      rewrite (anext_created_state chan self l stream s r Hr), Hopts.
      simpl. destruct (state_at_dispatch_rest self l s) as [-> _].
      reflexivity.
    + intros stream items Hchan Hfuel.
      rewrite (response_fan_out_steps chan self l stream s r items fuel
                 Hr Hopts Hchan Hfuel). reflexivity.
  - intros Hr Hopts stream. rewrite async_for_state.
    rewrite (anext_created_state chan self l stream s r Hr), Hopts.
    apply state_at_dispatch_rest.
Qed.

Lemma stream_flag_has_no_effect_witness :
  (heap sample_state !! 1%positive = Some (mkLlmRequest None ["hi"])
   /\ has_key "args" (TemporalModel.activity_options model_m) = false)
  /\ TemporalModel.async_for 3 two_fragments
       (TemporalModel.generate_content_async model_m 1%positive true)
       sample_state
     = TemporalModel.async_for 3 two_fragments
       (TemporalModel.generate_content_async model_m 1%positive false)
       sample_state
  /\ channel_log (snd (TemporalModel.async_for 3 two_fragments
       (TemporalModel.generate_content_async model_m 1%positive true)
       sample_state))
     = [mkCall fake_activity [by_reference 1%positive]
          [("schedule_to_close_timeout", VInt 50)]].
Proof.
  split; [split; reflexivity|].
  destruct (stream_flag_has_no_effect two_fragments model_m 1%positive
              sample_state (mkLlmRequest None ["hi"]) 2)
    as (_ & _ & Hone & _).
  destruct (Hone eq_refl eq_refl) as [Hlog _].
  split; [|exact (Hlog true)].
  destruct (stream_flag_has_no_effect two_fragments model_m 1%positive
              sample_state (mkLlmRequest None ["hi"]) 3)
    as (_ & Hrun & _).
  exact Hrun.
Defined.

(** C7 as stated fails in its count of dispatches: with an option named
    [args] on the instance, both runs, streaming or not, end in the same
    [TypeError] and the channel receives no call in either. *)
Lemma shadowed_args_runs_make_no_dispatch :
  TemporalModel.async_for 3 two_fragments
      (TemporalModel.generate_content_async shadowing_model 2%positive true)
      sample_state
    = ([], TemporalModel.Failed duplicate_args, sample_state)
  /\ TemporalModel.async_for 3 two_fragments
      (TemporalModel.generate_content_async shadowing_model 2%positive false)
      sample_state
    = ([], TemporalModel.Failed duplicate_args, sample_state)
  /\ channel_log sample_state = [].
Proof. repeat split. Qed.




(** In a fresh process, a provider installed through [runtime] survives
    resets of the platform modules, and leaves [platform_time] on the wall
    clock. *)
Lemma runtime_registry_is_a_separate_copy_witness :
  (forallb (fun c => negb (writes_runtime_time c)) platform_resets = true
   /\ forallb (fun c => negb (writes_runtime_id c)) platform_resets = true)
  /\ fst (fst (call runtime_get_time
        (process_after (runtime_set_time_provider frozen_clock
                          :: platform_resets) fresh_process sample_world)
        sample_world))
     = ret_float 123456789.0%float
  /\ fst (fst (call platform_time_get_time
        (process_after [runtime_set_time_provider frozen_clock]
           fresh_process sample_world) sample_world))
     = ret_float 1700000000.5%float.
Proof.
  split; [split; reflexivity|].
  destruct (runtime_registry_is_a_separate_copy frozen_clock counting_ids
              platform_resets fresh_process sample_world sample_world
              eq_refl eq_refl) as (H1 & _ & H3 & _).
  split; [rewrite H3; reflexivity|].
  destruct (H1 (runtime_set_time_provider frozen_clock)
              (or_introl eq_refl)) as [H _].
  rewrite H. reflexivity.
Defined.

End Delegation.

(* ================================================================== *)
(** * The repository's unit tests, replayed on the embedding *)
(* ================================================================== *)

Section UnitTests.

(** [test_activity_as_tool_wrapper] *)
Example test_activity_as_tool_wrapper :
  fst (activity_as_tool fake_activity [("start_to_close_timeout", VInt 100)]
         sample_state) = inr fake_tool
  /\ tool_name fake_tool = "fake_activity_name"
  /\ tool_doc fake_tool = Some "My Docstring."
  /\ tool_call mock_result_channel fake_tool [VStr "World"] [] sample_state
     = (inr (VStr "mock_result"),
        logged (mkCall fake_activity [by_value (VStr "World")]
                  [("start_to_close_timeout", VInt 100)]) sample_state).
Proof. repeat split. Qed.

(** [test_temporal_model_generate_content] *)
Example test_temporal_model_generate_content :
  TemporalModel.async_for 2 test_resp_channel
      (TemporalModel.generate_content_async test_model 1%positive false)
      test_state
    = ([VStr "test_resp"], TemporalModel.Exhausted,
       logged (mkCall fake_activity [by_reference 1%positive]
                 [("schedule_to_close_timeout", VInt 50)]) test_state).
Proof. reflexivity. Qed.

(** [test_custom_time_provider] and [test_custom_id_provider], in
    [test_runtime.py], [test_time.py] and [test_uuid.py]. *)
Example test_custom_providers :
  results_of
    [runtime_set_time_provider frozen_clock; runtime_get_time;
     runtime_set_id_provider (fun w => ("test-id-123", w)); runtime_new_uuid;
     platform_time_set_time_provider frozen_clock; platform_time_get_time;
     platform_uuid_set_id_provider (fun w => ("test-id-123", w));
     platform_uuid_new_uuid]
    fresh_process sample_world
  = [ret_None; ret_float 123456789.0%float;
     ret_None; ret_str "test-id-123";
     ret_None; ret_float 123456789.0%float;
     ret_None; ret_str "test-id-123"].
Proof. reflexivity. Qed.

(** [test_default_time_provider] and [test_default_id_provider]: the
    defaults read the clock and print a UUID. *)
Example test_default_providers :
  results_of [runtime_get_time; platform_time_get_time;
              platform_uuid_new_uuid]
    fresh_process sample_world
  = [ret_float 1700000000.5%float; ret_float 1700000001.25%float;
     ret_str "0b30557a-9fc4-490e-b358-7da2c7ec1136"]
  /\ is_uuid4_string "0b30557a-9fc4-490e-b358-7da2c7ec1136" = true.
Proof. split; reflexivity. Qed.

End UnitTests.

(* ================================================================== *)
(** * Further properties of the provider registry *)
(* ================================================================== *)

Section RegistryPrograms.

Implicit Types (c : api_call) (cs : list api_call) (P : Process) (w : World).

Lemma world_after_cons c cs P w :
  world_after (c :: cs) P w =
  world_after cs (snd (fst (call c P w))) (snd (call c P w)).
Proof. unfold world_after at 1. rewrite calls_cons. reflexivity. Qed.

Lemma results_of_cons c cs P w :
  results_of (c :: cs) P w =
  fst (fst (call c P w))
    :: results_of cs (snd (fst (call c P w))) (snd (call c P w)).
Proof. unfold results_of at 1. rewrite calls_cons. reflexivity. Qed.

Lemma process_after_app cs1 : forall cs2 P w,
  process_after (cs1 ++ cs2) P w =
  process_after cs2 (process_after cs1 P w) (world_after cs1 P w).
Proof.
  induction cs1 as [|c cs1 IH]; intros cs2 P w; [reflexivity|].
  rewrite <- app_comm_cons, !process_after_cons, world_after_cons.
  apply IH.
Qed.

(** The registry moves the same way in every world. *)
Lemma call_installs c P w : snd (fst (call c P w)) = installs c P.
Proof.
  destruct c; simpl; try reflexivity;
    match goal with
    | |- context [let '(_, _) := ?x in _] => destruct x; reflexivity
    end.
Qed.

(** The world a setter or a reset leaves is the world it found. *)
Lemma call_getter_or_same_world c P w :
  is_getter c = false -> snd (call c P w) = w.
Proof. destruct c; simpl; intros H; try discriminate; reflexivity. Qed.

(** X1. Whatever a program did to the registry, the calls of the tests'
    [tearDown] methods bring every slot of the three modules back to what
    it was after import. *)
Theorem teardown_restores_fresh_process cs P w :
  process_after (cs ++ teardown) P w = fresh_process.
Proof. rewrite process_after_app. reflexivity. Qed.

(** A program on [runtime] and its mirror on [platform/], started with
    the same providers in the mirrored slots, answer alike. *)
Lemma mirror_simulation cs : forall P1 P2 w,
  forallb is_runtime_call cs = true ->
  runtime._time_provider (mod_runtime P1)
    = platform_time._time_provider (mod_platform_time P2) ->
  runtime._id_provider (mod_runtime P1)
    = platform_uuid._id_provider (mod_platform_uuid P2) ->
  results_of cs P1 w = results_of (map mirror cs) P2 w
  /\ world_after cs P1 w = world_after (map mirror cs) P2 w.
Proof.
  induction cs as [|c cs IH]; intros P1 P2 w Hcs Ht Hi; [split; reflexivity|].
  simpl in Hcs. apply andb_true_iff in Hcs as [Hc Hcs].
  rewrite map_cons, !results_of_cons, !world_after_cons, !call_installs.
  assert (Hstep :
    fst (fst (call c P1 w)) = fst (fst (call (mirror c) P2 w))
    /\ snd (call c P1 w) = snd (call (mirror c) P2 w)
    /\ runtime._time_provider (mod_runtime (installs c P1))
       = platform_time._time_provider
           (mod_platform_time (installs (mirror c) P2))
    /\ runtime._id_provider (mod_runtime (installs c P1))
       = platform_uuid._id_provider
           (mod_platform_uuid (installs (mirror c) P2))).
  { destruct c; try discriminate; simpl;
      unfold runtime.get_time, runtime.new_uuid, platform_time.get_time,
        platform_uuid.new_uuid;
      rewrite <- ?Ht, <- ?Hi;
      try destruct (runtime._time_provider (mod_runtime P1) w);
      try destruct (runtime._id_provider (mod_runtime P1) w);
      repeat split; assumption. }
  destruct Hstep as (Hr & Hw & Ht' & Hi').
  rewrite Hr, Hw.
  destruct (IH (installs c P1) (installs (mirror c) P2)
              (snd (call (mirror c) P2 w)) Hcs Ht' Hi') as [IHr IHw].
  rewrite IHr, IHw. split; reflexivity.
Qed.

(** X2. [runtime.py] and the two modules of [platform/] are the same
    registry written twice: in a process where the mirrored slots hold the
    same providers, as after import, any program of calls to [runtime]
    returns what the same program returns when each call goes to the
    function of that name in [platform/], and leaves the same world. *)
Theorem runtime_mirrors_platform cs P w :
  forallb is_runtime_call cs = true ->
  runtime._time_provider (mod_runtime P)
    = platform_time._time_provider (mod_platform_time P) ->
  runtime._id_provider (mod_runtime P)
    = platform_uuid._id_provider (mod_platform_uuid P) ->
  results_of cs P w = results_of (map mirror cs) P w
  /\ world_after cs P w = world_after (map mirror cs) P w.
Proof. intros Hcs Ht Hi. apply mirror_simulation; assumption. Qed.

Lemma runtime_mirrors_platform_witness :
  forallb is_runtime_call (workflow_setup ++ workflow_reads) = true
  /\ results_of (workflow_setup ++ workflow_reads) fresh_process sample_world
     = results_of
         [platform_time_set_time_provider frozen_clock;
          platform_uuid_set_id_provider counting_ids;
          platform_time_get_time; platform_uuid_new_uuid;
          platform_uuid_new_uuid; platform_time_get_time]
         fresh_process sample_world.
Proof.
  split; [reflexivity|].
  exact (proj1 (runtime_mirrors_platform (workflow_setup ++ workflow_reads)
                  fresh_process sample_world eq_refl eq_refl eq_refl)).
Defined.

(** One call, run in two worlds with the same history. *)
Lemma call_replay c P w1 w2 :
  reads_replayable c P ->
  same_history w1 w2 ->
  fst (fst (call c P w1)) = fst (fst (call c P w2))
  /\ same_history (snd (call c P w1)) (snd (call c P w2)).
Proof.
  intros Hc Hw.
  destruct c; simpl in *; try (split; [reflexivity | exact Hw]);
    unfold platform_time.get_time, platform_uuid.new_uuid,
      runtime.get_time, runtime.new_uuid;
    destruct (Hc w1 w2 Hw) as [Hv Hw'];
    match goal with
    | |- context [let '(_, _) := ?p w1 in _] =>
        destruct (p w1), (p w2); simpl in *; rewrite Hv; split;
        [reflexivity | exact Hw']
    end.
Qed.

(** X3. A program whose every read finds a replayable provider in its
    slot (one that answers from the recorded history alone) returns the
    same results in two worlds that share the history, whatever their
    clocks and entropy: [get_time] and [new_uuid] consult the system only
    through the provider installed. *)
Theorem replayable_reads_replay cs : forall P w1 w2,
  replay_safe cs P ->
  same_history w1 w2 ->
  results_of cs P w1 = results_of cs P w2
  /\ same_history (world_after cs P w1) (world_after cs P w2).
Proof.
  induction cs as [|c cs IH]; intros P w1 w2 Hsafe Hw.
  - split; [reflexivity | exact Hw].
  - destruct Hsafe as [Hc Hsafe].
    rewrite !results_of_cons, !world_after_cons, !call_installs.
    destruct (call_replay c P w1 w2 Hc Hw) as [Hr Hw'].
    destruct (IH (installs c P) _ _ Hsafe Hw') as [IHr IHw].
    rewrite Hr, IHr. split; [reflexivity | exact IHw].
Qed.

Lemma frozen_clock_replayable : replayable frozen_clock.
Proof. intros w1 w2 H. split; [reflexivity | exact H]. Qed.

Lemma counting_ids_replayable : replayable counting_ids.
Proof.
  intros w1 w2 H. unfold same_history in *. unfold counting_ids. simpl.
  rewrite H. split; reflexivity.
Qed.

Lemma replayable_reads_replay_witness :
  (replay_safe (workflow_setup ++ workflow_reads) fresh_process
   /\ same_history sample_world replay_world)
  /\ results_of (workflow_setup ++ workflow_reads) fresh_process sample_world
     = results_of (workflow_setup ++ workflow_reads) fresh_process
         replay_world.
Proof.
  assert (Hsafe : replay_safe (workflow_setup ++ workflow_reads)
                    fresh_process).
  { exact (conj I (conj I (conj frozen_clock_replayable
             (conj counting_ids_replayable (conj counting_ids_replayable
                (conj frozen_clock_replayable I)))))). }
  split; [split; [exact Hsafe | reflexivity]|].
  exact (proj1 (replayable_reads_replay (workflow_setup ++ workflow_reads)
                  fresh_process sample_world replay_world Hsafe eq_refl)).
Defined.

End RegistryPrograms.

(* ================================================================== *)
(** * Further properties of the delegation layer *)
(* ================================================================== *)

Section DelegationEdges.

Implicit Types (chan : Channel) (self : TemporalModel.t) (l : loc)
  (s : State) (r : LlmRequest) (items : list value) (u : Callable)
  (o kw : kwargs) (args : list value) (t : Tool).

(** The guard, then the backend. *)
Lemma generate_content_activity_unfold new_llm request :
  generate_content_activity new_llm request =
    if str_truthy (model request)
    then resolve_and_collect new_llm (default "" (model request)) request
    else inl model_required.
Proof.
  unfold generate_content_activity, resolve_and_collect.
  destruct (str_truthy (model request)); simpl; [|reflexivity].
  destruct (new_llm _) as [e|llm]; [reflexivity|].
  destruct (llm_generate_content_async llm request) as [rs [e|]];
    reflexivity.
Qed.

(** X4. [generate_content_activity] returns a list exactly when the
    request names a model, the registry resolves that name, and the backend
    runs to its end; the list is then everything the backend produced.  A
    request without a model, a name the registry refuses and a backend
    that fails after some fragments all end in an error and return
    nothing. *)
Theorem activity_returns_iff
    (new_llm : LLMRegistry) (request : LlmRequest) (rs : list value) :
  generate_content_activity new_llm request = inr rs <->
  exists x llm,
    model request = Some x /\ x <> ""
    /\ new_llm x = inr llm
    /\ llm_generate_content_async llm request = (rs, None).
Proof.
  rewrite generate_content_activity_unfold. unfold resolve_and_collect.
  split.
  - destruct (str_truthy (model request)) eqn:Hm; [|discriminate].
    apply str_truthy_true in Hm as (x & Hx & Hne). rewrite Hx. simpl.
    destruct (new_llm x) as [e|llm] eqn:Hllm; [discriminate|].
    destruct (llm_generate_content_async llm request) as [rs' [e|]] eqn:Hrun;
      [discriminate|].
    intros [= <-]. exists x, llm. repeat split; assumption.
  - intros (x & llm & Hx & Hne & Hllm & Hrun).
    assert (Hm : str_truthy (model request) = true).
    { apply str_truthy_true. exists x. split; assumption. }
    rewrite Hm, Hx. simpl. rewrite Hllm, Hrun. reflexivity.
Qed.

(** X5. The request a generation leaves behind names the backend the
    default activity will resolve: the caller's model name when the caller
    set one, the instance's otherwise; the activity's own refusal
    ([ValueError]) is met only when both are empty. *)
Theorem dispatched_request_names_a_backend
    (chan : Channel) (new_llm : LLMRegistry) (self : TemporalModel.t)
    (l : loc) (stream : bool) (s : State) (r : LlmRequest) :
  heap s !! l = Some r ->
  exists r1,
    heap (snd (TemporalModel.anext chan
                 (TemporalModel.generate_content_async self l stream) s))
      !! l = Some r1
    /\ (forall x, model r = Some x -> x <> "" ->
         generate_content_activity new_llm r1
           = resolve_and_collect new_llm x r1)
    /\ (model r = None \/ model r = Some "" ->
        TemporalModel.model self <> "" ->
        generate_content_activity new_llm r1
          = resolve_and_collect new_llm (TemporalModel.model self) r1)
    /\ (model r = None \/ model r = Some "" ->
        TemporalModel.model self = "" ->
        generate_content_activity new_llm r1 = inl model_required).
Proof.
  intros Hr. exists (request_at_dispatch self r).
  rewrite (anext_created_state chan self l stream s r Hr).
  split.
  { destruct (has_key "args" _); simpl;
      rewrite (state_at_dispatch_heap self l s r Hr);
      apply lookup_insert_eq. }
  rewrite generate_content_activity_unfold. unfold request_at_dispatch.
  split; [|split].
  - intros x Hx Hne.
    assert (Hm : str_truthy (model r) = true).
    { apply str_truthy_true. exists x. split; assumption. }
    rewrite !Hm, Hx. reflexivity.
  - intros Hm Hself. apply str_truthy_false in Hm. rewrite Hm. simpl.
    apply String.eqb_neq in Hself. rewrite Hself. reflexivity.
  - intros Hm Hself. apply str_truthy_false in Hm. rewrite Hm. simpl.
    rewrite Hself. reflexivity.
Qed.

Lemma dispatched_request_names_a_backend_witness :
  heap sample_state !! 1%positive = Some (mkLlmRequest None ["hi"])
  /\ exists r1,
       heap (snd (TemporalModel.anext two_fragments
               (TemporalModel.generate_content_async model_m 1%positive
                  false) sample_state)) !! 1%positive = Some r1
       /\ generate_content_activity echo_registry r1
          = resolve_and_collect echo_registry "m" r1.
Proof.
  split; [reflexivity|].
  destruct (dispatched_request_names_a_backend two_fragments echo_registry
              model_m 1%positive false sample_state
              (mkLlmRequest None ["hi"]) eq_refl) as (r1 & H1 & _ & H3 & _).
  exists r1. split; [exact H1|].
  apply H3; [left; reflexivity | discriminate].
Defined.

(** A started generator hands out what is left, one element a step. *)
Lemma async_for_suspended_prefix chan : forall fuel items s,
  TemporalModel.async_for fuel chan (TemporalModel.suspended items) s =
    (firstn fuel items,
     if (length items <? fuel)%nat then TemporalModel.Exhausted
     else TemporalModel.Pending,
     s).
Proof.
  induction fuel as [|fuel IH]; intros items s; [reflexivity|].
  destruct items as [|x rest]; [reflexivity|].
  rewrite async_for_S. cbn [TemporalModel.anext TemporalModel.loop].
  rewrite IH. reflexivity.
Qed.

Lemma async_for_loop_prefix chan g s s' items fuel :
  TemporalModel.anext chan g s = (TemporalModel.loop items, s') ->
  TemporalModel.async_for (S fuel) chan g s =
    (firstn (S fuel) items,
     if (length items <? S fuel)%nat then TemporalModel.Exhausted
     else TemporalModel.Pending,
     s').
Proof.
  intros Hstep. rewrite async_for_S, Hstep.
  destruct items as [|x rest]; [reflexivity|].
  simpl TemporalModel.loop. cbv iota beta.
  rewrite async_for_suspended_prefix. reflexivity.
Qed.

(** X6. A consumer that takes [n >= 1] steps of a generation whose call
    resolved to a list receives the first [n] fragments of that list, in
    order, and reaches the end exactly when [n] exceeds their number.  The
    call and the write to the request are complete after the first step,
    however few fragments the consumer takes: nothing is fetched
    incrementally. *)
Theorem consumer_receives_a_prefix
    (chan : Channel) (self : TemporalModel.t) (l : loc) (stream : bool)
    (s : State) (r : LlmRequest) (items : list value) (fuel : nat) :
  heap s !! l = Some r ->
  has_key "args" (TemporalModel.activity_options self) = false ->
  chan (state_at_dispatch self l s) (dispatched_call self l)
    = inr (VList items) ->
  TemporalModel.async_for (S fuel) chan
      (TemporalModel.generate_content_async self l stream) s
    = (firstn (S fuel) items,
       if (length items <? S fuel)%nat then TemporalModel.Exhausted
       else TemporalModel.Pending,
       logged (dispatched_call self l) (state_at_dispatch self l s)).
Proof.
  intros Hr Hopts Hchan. apply async_for_loop_prefix.
  rewrite (anext_created chan self l stream s r Hr), Hopts, Hchan.
  reflexivity.
Qed.

Lemma consumer_receives_a_prefix_witness :
  (heap sample_state !! 1%positive = Some (mkLlmRequest None ["hi"])
   /\ has_key "args" (TemporalModel.activity_options model_m) = false)
  /\ TemporalModel.async_for 1 two_fragments
       (TemporalModel.generate_content_async model_m 1%positive false)
       sample_state
     = ([VStr "R1"], TemporalModel.Pending,
        logged (dispatched_call model_m 1%positive)
          (state_at_dispatch model_m 1%positive sample_state)).
Proof.
  split; [split; reflexivity|].
  exact (consumer_receives_a_prefix two_fragments model_m 1%positive false
           sample_state (mkLlmRequest None ["hi"])
           [VStr "R1"; VStr "R2"] 0 eq_refl eq_refl eq_refl).
Defined.

(** X7. When the call of a generation resolves to something that is not a
    list, the [for] statement decides: [None], a bool or an int cannot be
    iterated, and the generation raises [TypeError] with no fragment, after
    the call was made; a string is iterated character by character, each
    character a fragment. *)
Theorem result_that_is_not_a_list
    (chan : Channel) (self : TemporalModel.t) (l : loc) (stream : bool)
    (s : State) (r : LlmRequest) (v : value) (fuel : nat) :
  heap s !! l = Some r ->
  has_key "args" (TemporalModel.activity_options self) = false ->
  chan (state_at_dispatch self l s) (dispatched_call self l) = inr v ->
  (forall items, v <> VList items) ->
  match v with
  | VStr str =>
      TemporalModel.async_for (S fuel) chan
          (TemporalModel.generate_content_async self l stream) s
        = (firstn (S fuel)
             (map (fun c => VStr (String c "")) (list_ascii_of_string str)),
           if (String.length str <? S fuel)%nat then TemporalModel.Exhausted
           else TemporalModel.Pending,
           logged (dispatched_call self l) (state_at_dispatch self l s))
  | _ =>
      exists msg,
        TemporalModel.async_for (S fuel) chan
            (TemporalModel.generate_content_async self l stream) s
          = ([], TemporalModel.Failed (TypeError msg),
             logged (dispatched_call self l) (state_at_dispatch self l s))
  end.
Proof.
  intros Hr Hopts Hchan Hv.
  pose proof (anext_created chan self l stream s r Hr) as Hstep.
  rewrite Hopts, Hchan in Hstep.
  destruct v as [| b | n | str | items]; cbn [py_iter] in Hstep;
    try (eexists; rewrite async_for_S, Hstep; reflexivity).
  - rewrite (async_for_loop_prefix _ _ _ _ _ _ Hstep).
    rewrite length_map.
    replace (length (list_ascii_of_string str)) with (String.length str);
      [reflexivity|].
    clear. induction str as [|c str IH]; simpl; [reflexivity|].
    rewrite IH. reflexivity.
  - exfalso. exact (Hv items eq_refl).
Qed.

Lemma result_that_is_not_a_list_witness :
  (heap sample_state !! 1%positive = Some (mkLlmRequest None ["hi"])
   /\ has_key "args" (TemporalModel.activity_options model_m) = false)
  /\ TemporalModel.async_for 3 mock_result_channel
       (TemporalModel.generate_content_async model_m 1%positive false)
       sample_state
     = ([VStr "m"; VStr "o"; VStr "c"], TemporalModel.Pending,
        logged (dispatched_call model_m 1%positive)
          (state_at_dispatch model_m 1%positive sample_state)).
Proof.
  split; [split; reflexivity|].
  exact (result_that_is_not_a_list mock_result_channel model_m 1%positive
           false sample_state (mkLlmRequest None ["hi"])
           (VStr "mock_result") 2 eq_refl eq_refl eq_refl
           (fun items H => eq_ind (VStr "mock_result")
              (fun v => match v with VStr _ => True | _ => False end)
              I _ H)).
Defined.


(** X8. Options that carry the keyword [args] shut the channel off: a
    tool wrapped with them raises [TypeError] on every call, whatever its
    arguments, and a model built with them raises it at the first step of
    every generation; no call reaches the channel.  The model has by then
    written its name into a request that had none. *)
Theorem shadowed_args_never_dispatch
    (chan : Channel) (t : Tool) (args : list value) (kw : kwargs)
    (st : State) (self : TemporalModel.t) (l : loc) (stream : bool)
    (s : State) (r : LlmRequest) (fuel : nat) :
  has_key "args" (tool_activity_options t) = true ->
  has_key "args" (TemporalModel.activity_options self) = true ->
  heap s !! l = Some r ->
  tool_call chan t args kw st = (inl duplicate_args, st)
  /\ TemporalModel.async_for (S fuel) chan
        (TemporalModel.generate_content_async self l stream) s
     = ([], TemporalModel.Failed duplicate_args, state_at_dispatch self l s)
  /\ channel_log (state_at_dispatch self l s) = channel_log s
  /\ heap (state_at_dispatch self l s)
     = <[l := request_at_dispatch self r]> (heap s).
Proof.
  intros Ht Hself Hr.
  split.
  { unfold tool_call. rewrite tool_wrapper_unfold, Ht. reflexivity. }
  split.
  { rewrite async_for_S, (anext_created chan self l stream s r Hr), Hself.
    reflexivity. }
  split.
  - apply state_at_dispatch_rest.
  - apply state_at_dispatch_heap, Hr.
Qed.

Lemma shadowed_args_never_dispatch_witness :
  (has_key "args" (tool_activity_options shadowing_tool) = true
   /\ has_key "args" (TemporalModel.activity_options shadowing_model) = true
   /\ heap sample_state !! 1%positive = Some (mkLlmRequest None ["hi"]))
  /\ tool_call two_fragments shadowing_tool [] [("x", VInt 1)] sample_state
     = (inl duplicate_args, sample_state)
  /\ fst (TemporalModel.async_for 2 two_fragments
       (TemporalModel.generate_content_async shadowing_model 1%positive
          true) sample_state)
     = ([], TemporalModel.Failed duplicate_args).
Proof.
  split; [repeat split|].
  destruct (shadowed_args_never_dispatch two_fragments shadowing_tool []
              [("x", VInt 1)] sample_state shadowing_model 1%positive true
              sample_state (mkLlmRequest None ["hi"]) 1
              eq_refl eq_refl eq_refl) as (H1 & H2 & _).
  split; [exact H1|]. rewrite H2. reflexivity.
Defined.

(** X9. A tool forwards values, not names: two invocations whose
    positional arguments followed by keyword values, in the order written,
    make the same list are the same call to the channel, with the same
    result.  Which arguments were passed by keyword, and under which
    names, does not reach the activity. *)
Theorem keyword_names_are_dropped
    (chan : Channel) (t : Tool) (args1 args2 : list value)
    (kw1 kw2 : kwargs) (s : State) :
  (args1 ++ map snd kw1 = args2 ++ map snd kw2)%list ->
  tool_call chan t args1 kw1 s = tool_call chan t args2 kw2 s.
Proof.
  intros H. unfold tool_call. rewrite !tool_wrapper_unfold, H. reflexivity.
Qed.

Lemma keyword_names_are_dropped_witness :
  ([VStr "a"] ++ map snd [("y", VStr "b")]
   = [] ++ map snd [("q", VStr "a"); ("p", VStr "b")])%list
  /\ tool_call two_fragments fake_tool [VStr "a"] [("y", VStr "b")]
       sample_state
     = tool_call two_fragments fake_tool []
         [("q", VStr "a"); ("p", VStr "b")] sample_state.
Proof.
  split; [reflexivity|].
  exact (keyword_names_are_dropped two_fragments fake_tool [VStr "a"] []
           [("y", VStr "b")] [("q", VStr "a"); ("p", VStr "b")]
           sample_state eq_refl).
Defined.


(** X11. The execution options are opaque to the metadata: wrapping one
    unit of work with any two sets of options, in any two states, gives
    tools with the same name, description, annotations and signature, each
    holding the options it was given. *)
Theorem tool_metadata_ignores_options
    (u : Callable) (o1 o2 : kwargs) (s1 s1' s2 s2' : State) (t1 t2 : Tool) :
  activity_as_tool u o1 s1 = (inr t1, s1') ->
  activity_as_tool u o2 s2 = (inr t2, s2') ->
  tool_metadata t1 = tool_metadata t2
  /\ tool_activity_options t1 = o1
  /\ tool_activity_options t2 = o2.
Proof.
  rewrite !activity_as_tool_unfold. cbv zeta.
  destruct (dunder_name u) as [n|]; [|discriminate].
  destruct (attr_name u) as [[| | |n'|]|]; try discriminate;
    intros [= <- _] [= <- _]; repeat split.
Qed.

Lemma tool_metadata_ignores_options_witness :
  (activity_as_tool fake_activity [("start_to_close_timeout", VInt 100)]
     sample_state
     = (inr fake_tool, mkState (heap sample_state) [] 11%positive)
   /\ activity_as_tool fake_activity shadowing_options sample_state
     = (inr shadowing_tool, mkState (heap sample_state) [] 11%positive))
  /\ tool_metadata fake_tool = tool_metadata shadowing_tool.
Proof.
  split; [split; reflexivity|].
  exact (proj1 (tool_metadata_ignores_options fake_activity
                  [("start_to_close_timeout", VInt 100)] shadowing_options
                  sample_state _ sample_state _ fake_tool shadowing_tool
                  eq_refl eq_refl)).
Defined.

(** X12. A model built without [activity_def] only ever calls an activity
    listed by [default_activities()]: every call a generation adds to the
    channel is on such an activity, so a worker that registers
    [default_activities()] can serve it. *)
Theorem default_model_calls_default_activities
    (chan : Channel) (model_name : string) (activity_options : kwargs)
    (l : loc) (stream : bool) (s : State) (r : LlmRequest) (fuel : nat)
    (c : Call) :
  heap s !! l = Some r ->
  In c (channel_log (snd (TemporalModel.async_for fuel chan
         (TemporalModel.generate_content_async
            (TemporalModel.__init__ model_name None activity_options)
            l stream) s))) ->
  In c (channel_log s)
  \/ In (call_activity c) TemporalModel.default_activities.
Proof.
  intros Hr. destruct fuel as [|fuel]; [left; assumption|].
  rewrite async_for_state, (anext_created_state _ _ _ _ _ _ Hr).
  destruct (has_key "args" _); simpl.
  - destruct (state_at_dispatch_rest
                (TemporalModel.__init__ model_name None activity_options)
                l s) as [-> _].
    left. assumption.
  - destruct (state_at_dispatch_rest
                (TemporalModel.__init__ model_name None activity_options)
                l s) as [-> _].
    intros Hin. apply in_app_or in Hin as [Hin | [<- | []]].
    + left. exact Hin.
    + right. left. reflexivity.
Qed.

Lemma default_model_calls_default_activities_witness :
  (heap sample_state !! 1%positive = Some (mkLlmRequest None ["hi"])
   /\ In (mkCall generate_content_activity_def [by_reference 1%positive] [])
        (channel_log (snd (TemporalModel.async_for 2
           (inline_channel echo_registry)
           (TemporalModel.generate_content_async
              (TemporalModel.__init__ "echo" None []) 1%positive false)
           sample_state))))
  /\ (In (mkCall generate_content_activity_def [by_reference 1%positive] [])
        (channel_log sample_state)
      \/ In generate_content_activity_def TemporalModel.default_activities).
Proof.
  assert (Hin : In (mkCall generate_content_activity_def
                      [by_reference 1%positive] [])
        (channel_log (snd (TemporalModel.async_for 2
           (inline_channel echo_registry)
           (TemporalModel.generate_content_async
              (TemporalModel.__init__ "echo" None []) 1%positive false)
           sample_state)))) by (left; reflexivity).
  split; [split; [reflexivity | exact Hin]|].
  exact (default_model_calls_default_activities
           (inline_channel echo_registry) "echo" [] 1%positive false
           sample_state (mkLlmRequest None ["hi"]) 2
           (mkCall generate_content_activity_def [by_reference 1%positive] [])
           eq_refl Hin).
Defined.


(** X13. Because the model name is written into the caller's object, a
    request that had none and has been through one model carries that
    model's name from then on: handed to a second model, whatever its
    name, it is dispatched unchanged, under the first model's name. *)
Theorem reused_request_keeps_first_model
    (chan : Channel) (self1 self2 : TemporalModel.t) (l : loc)
    (stream1 stream2 : bool) (s : State) (r : LlmRequest) (fuel : nat) :
  heap s !! l = Some r ->
  (model r = None \/ model r = Some "") ->
  TemporalModel.model self1 <> "" ->
  let s1 :=
    snd (TemporalModel.async_for (S fuel) chan
           (TemporalModel.generate_content_async self1 l stream1) s) in
  heap s1 !! l
    = Some (mkLlmRequest (Some (TemporalModel.model self1)) (contents r))
  /\ heap (state_at_dispatch self2 l s1) = heap s1
  /\ heap (snd (TemporalModel.anext chan
        (TemporalModel.generate_content_async self2 l stream2) s1)) !! l
     = Some (mkLlmRequest (Some (TemporalModel.model self1)) (contents r)).
Proof.
  intros Hr Hm Hself. cbv zeta.
  rewrite async_for_state, (anext_created_state chan self1 l stream1 s r Hr).
  set (s1 := if has_key "args" (TemporalModel.activity_options self1)
             then state_at_dispatch self1 l s
             else logged (dispatched_call self1 l)
                    (state_at_dispatch self1 l s)).
  assert (Hr1 : heap s1 !! l
    = Some (mkLlmRequest (Some (TemporalModel.model self1)) (contents r))).
  { subst s1. destruct (has_key "args" _); simpl;
      rewrite (state_at_dispatch_heap self1 l s r Hr), lookup_insert_eq;
      unfold request_at_dispatch; apply str_truthy_false in Hm;
      rewrite Hm; reflexivity. }
  assert (Hset : str_truthy (Some (TemporalModel.model self1)) = true).
  { simpl. apply negb_true_iff, String.eqb_neq, Hself. }
  assert (Hsame : state_at_dispatch self2 l s1 = s1).
  { unfold state_at_dispatch. rewrite Hr1. simpl model. rewrite Hset.
    reflexivity. }
  split; [exact Hr1|]. split; [rewrite Hsame; reflexivity|].
  rewrite (anext_created_state chan self2 l stream2 s1 _ Hr1), Hsame.
  destruct (has_key "args" (TemporalModel.activity_options self2));
    exact Hr1.
Qed.

Lemma reused_request_keeps_first_model_witness :
  (heap sample_state !! 1%positive = Some (mkLlmRequest None ["hi"])
   /\ TemporalModel.model model_m <> "")
  /\ heap (snd (TemporalModel.anext two_fragments
        (TemporalModel.generate_content_async test_model 1%positive false)
        (snd (TemporalModel.async_for 3 two_fragments
                (TemporalModel.generate_content_async model_m 1%positive
                   false) sample_state)))) !! 1%positive
     = Some (mkLlmRequest (Some "m") ["hi"]).
Proof.
  assert (Hm : TemporalModel.model model_m <> "") by discriminate.
  split; [split; [reflexivity | exact Hm]|].
  destruct (reused_request_keeps_first_model two_fragments model_m
              test_model 1%positive false false sample_state
              (mkLlmRequest None ["hi"]) 2 eq_refl (or_introl eq_refl) Hm)
    as (_ & _ & H).
  exact H.
Defined.

End DelegationEdges.
